(** * ultimate-notion: property values, schema-driven page creation, endpoints

    A shallow embedding of the parts of
      - [ultimate_notion/obj_api/props.py]      (property values)
      - [ultimate_notion/objects.py]            (user-facing [RichText])
      - [ultimate_notion/database.py]           ([Database.schema], [create_page])
      - [ultimate_notion/obj_api/endpoints.py]  ([PagesEndpoint.create],
                                                 [ChildrenEndpoint.append])
    that the checked properties speak about.

    Conventions.
    - A Python call that may raise returns [result A]: [Ok a] or [Raise e].
    - A method that mutates [self] (or the session) and may raise midway is a
      function [S -> result A * S]: the state on the right is the one the
      caller observes, also after an exception.
    - Python's [float | int] is the carrier [num] of the class [PyNum]; the
      interpreter's arithmetic on it is a parameter, never an assumption.
    - A Python [dict] used as a map is a [gmap]; a [set] is a [gset]; where
      iteration order matters (keyword arguments, the column map) it is an
      association list. *)

From Stdlib Require Import ZArith QArith String List.
From stdpp Require Import base option list gmap strings.

#[local] Set Warnings "-clear-no-such-hyp".

Local Open Scope string_scope.
Local Open Scope list_scope.

(* ================================================================== *)
(** * Part I. Definitions                                              *)
(* ================================================================== *)

(** ** Property types and columns ([ultimate_notion.schema]) *)

(** Modelled from the spec: [ultimate_notion/schema.py] is not part of the
    sources.  Section 3 of the specification lists the closed set of
    property variants; a column type is its discriminator tag. *)
Inductive PropertyType :=
  | TTitle | TRichText | TNumber | TCheckbox | TDate | TStatus | TSelectOne
  | TMultiSelect | TPeople | TURL | TEmail | TPhoneNumber | TFiles | TFormula
  | TRelation | TRollup | TCreatedTime | TCreatedBy | TLastEditedTime
  | TLastEditedBy.

#[global] Instance PropertyType_eq_dec : EqDecision PropertyType.
Proof. solve_decision. Defined.

(** Modelled from the spec: the [readonly] flag of a property-value class
    ([col.type.prop_value.readonly]) is declared outside the sources.
    Section 3: "read-only variants (formula, rollup, created/edited metadata)
    reject writes"; Section 7 names the six of them. *)
Definition readonly (t : PropertyType) : bool :=
  match t with
  | TFormula | TRollup | TCreatedTime | TCreatedBy
  | TLastEditedTime | TLastEditedBy => true
  | _ => false
  end.

(** [schema.Column(name, type)]; [attr_name] is the attribute under which the
    column sits in its schema class. *)
Record Column := mkColumn {
  col_name : string;
  col_type : PropertyType;
  attr_name : string
}.

#[global] Instance Column_eq_dec : EqDecision Column.
Proof. solve_decision. Defined.

(** ** Exceptions *)

(** What a [SchemaError] message is built from.  The two messages of
    [database.py] interpolate Python sets; the model keeps the sets. *)
Inductive schema_detail :=
  | UndefinedKwargs (add_kwargs : gset string)
  | Inconsistent (cols_added cols_removed cols_changed : gset string).

Inductive exn :=
  | ValueError (msg : string)
  | TypeError (msg : string)
  | AttributeError (msg : string)
  | ZeroDivisionError
  | KeyError (key : string)
  | NotImplementedError
  | SchemaError (detail : schema_detail)
  | ReadOnlyColumnError (col : Column)
  | SessionError (msg : string).

Inductive result (A : Type) :=
  | Ok (a : A)
  | Raise (e : exn).
Arguments Ok {A} a.
Arguments Raise {A} e.

Definition rbind {A B} (c : result A) (k : A -> result B) : result B :=
  match c with
  | Ok a => k a
  | Raise e => Raise e
  end.

Notation "'let*' x ':=' c 'in' k" := (rbind c (fun x => k))
  (at level 10, x pattern, c at level 100, k at level 200).

Definition raises {A} (c : result A) : Prop := exists e, c = Raise e.

Definition is_ok {A} (c : result A) : bool :=
  match c with Ok _ => true | Raise _ => false end.

(** Methods that mutate an object of type [S]. *)
Definition mut (S A : Type) : Type := S -> result A * S.

Definition mret {S A} (a : A) : mut S A := fun s => (Ok a, s).
Definition mraise {S A} (e : exn) : mut S A := fun s => (Raise e, s).
Definition mseq {S A B} (c : mut S A) (k : A -> mut S B) : mut S B :=
  fun s => match c s with
           | (Ok a, s') => k a s'
           | (Raise e, s') => (Raise e, s')
           end.

Notation "'do' x '<-' c 'in' k" := (mseq c (fun x => k))
  (at level 10, x pattern, c at level 100, k at level 200).

(** ** Python numbers *)

(** The interpreter's [float | int] and the built-in operations the sources
    apply to it. *)
Class PyNum := {
  num : Type;
  num_add : num -> num -> num;
  num_sub : num -> num -> num;
  num_mul : num -> num -> num;
  num_div : num -> num -> option num;   (* [None]: division by zero *)
  num_float : num -> num;               (* [float(x)] *)
  num_int : num -> num                  (* [int(x)] *)
}.

(** ** [props.py]: [Number] *)

Section NumberModel.
Context `{PyNum}.

(** A native Python value of a number field: [float | int | None]. *)
Definition native_num : Type := option num.

(** [class Number]: [number: float | int | None = None]. *)
Record Number := mkNumber { number : native_num }.

(** What stands on the other side of an operator: a native value or another
    [Number]. *)
Inductive operand :=
  | ONative (v : native_num)
  | ONumber (x : Number).

Inductive binop := OpAdd | OpSub | OpMul | OpTrueDiv.

(** The interpreter's [a op b] on native values: [None] supports none of the
    operators. *)
Definition native_binop (op : binop) (a b : native_num) : result native_num :=
  match a, b with
  | Some x, Some y =>
      match op with
      | OpAdd => Ok (Some (num_add x y))
      | OpSub => Ok (Some (num_sub x y))
      | OpMul => Ok (Some (num_mul x y))
      | OpTrueDiv =>
          match num_div x y with
          | Some q => Ok (Some q)
          | None => Raise ZeroDivisionError
          end
      end
  | _, _ => Raise (TypeError "unsupported operand type(s)")
  end.

(** [Number.Value] (props.py l.185). *)
Definition Number_Value (self : Number) : native_num := number self.

(** [Number.__float__] (l.121). *)
Definition Number_float (self : Number) : result num :=
  match number self with
  | None => Raise (ValueError "Cannot convert 'None' to float")
  | Some n => Ok (num_float n)
  end.

(** [Number.__int__] (l.129). *)
Definition Number_int (self : Number) : result num :=
  match number self with
  | None => Raise (ValueError "Cannot convert 'None' to int")
  | Some n => Ok (num_int n)
  end.

(** The built-in [float(other)]. *)
Definition py_float (other : operand) : result num :=
  match other with
  | ONative (Some n) => Ok (num_float n)
  | ONative None => Raise (TypeError "float() argument must be a string or a real number")
  | ONumber x => Number_float x
  end.

(** [Number[value]], that is [NativeTypeMixin.__compose__] (l.37):
    [cls(number=value)].  A native value is stored as it is; a [Number]
    handed to the field is coerced by the field's [float] validator, which
    goes through [__float__]. *)
Definition Number_compose (value : operand) : result Number :=
  match value with
  | ONative v => Ok (mkNumber v)
  | ONumber x => let* f := Number_float x in Ok (mkNumber (Some f))
  end.

(** [Number.__iadd__] (l.137) and [Number.__isub__] (l.147): the field is
    updated in place with the native operator. *)
Definition Number_inplace (op : binop) (other : operand) : mut Number unit :=
  fun self =>
    let rhs := match other with
               | ONumber o => Number_Value o
               | ONative v => v
               end in
    match native_binop op (number self) rhs with
    | Ok v => (Ok tt, mkNumber v)
    | Raise e => (Raise e, self)
    end.

Definition Number_iadd := Number_inplace OpAdd.
Definition Number_isub := Number_inplace OpSub.

(** [other + self.Value] and [other * self.Value] where [other] is native. *)
Definition Number_commute_native (op : binop) (self : Number) (other : native_num)
  : result Number :=
  let* v := native_binop op other (Number_Value self) in
  Number_compose (ONative v).

(** [Number.__add__] (l.157): [Number[other + self.Value]], and
    [Number.__mul__] (l.165): [Number[other * self.Value]].  When [other] is
    itself a [Number], [other + self.Value] is [other.__add__(self.Value)]. *)
Definition Number_commute (op : binop) (self : Number) (other : operand)
  : result Number :=
  match other with
  | ONative v => Number_commute_native op self v
  | ONumber o =>
      let* r := Number_commute_native op o (Number_Value self) in
      Number_compose (ONumber r)
  end.

Definition Number_add := Number_commute OpAdd.
Definition Number_mul := Number_commute OpMul.

(** [Number.__sub__] (l.161): [Number[self.Value - float(other)]]. *)
Definition Number_sub (self : Number) (other : operand) : result Number :=
  let lhs := Number_Value self in
  let* f := py_float other in
  let* v := native_binop OpSub lhs (Some f) in
  Number_compose (ONative v).

(** The binary operators [class Number] defines.  There is no
    [__truediv__], and no reflected method at all. *)
Definition Number_method (op : binop)
  : option (Number -> operand -> result Number) :=
  match op with
  | OpAdd => Some Number_add
  | OpSub => Some Number_sub
  | OpMul => Some Number_mul
  | OpTrueDiv => None
  end.

Definition Number_rmethod (op : binop)
  : option (Number -> operand -> result Number) := None.

(** The interpreter's dispatch of [lhs op rhs]: the left operand's method,
    else the right operand's reflected method when the types differ, else
    [TypeError]. *)
Definition py_binop (op : binop) (lhs rhs : operand) : result operand :=
  match lhs, rhs with
  | ONative a, ONative b =>
      let* v := native_binop op a b in Ok (ONative v)
  | ONumber x, _ =>
      match Number_method op with
      | Some m => let* r := m x rhs in Ok (ONumber r)
      | None => Raise (TypeError "unsupported operand type(s)")
      end
  | ONative a, ONumber y =>
      match Number_rmethod op with
      | Some m => let* r := m y lhs in Ok (ONumber r)
      | None => Raise (TypeError "unsupported operand type(s)")
      end
  end.

(** The augmented assignment [x op= other] on a [Number] [x]: [__iadd__] and
    [__isub__] exist, the other operators fall back on the binary method and
    rebind [x]. *)
Definition py_augassign (op : binop) (other : operand) : mut Number unit :=
  fun self =>
    match op with
    | OpAdd => Number_iadd other self
    | OpSub => Number_isub other self
    | _ =>
        match py_binop op (ONumber self) other with
        | Ok (ONumber r) => (Ok tt, r)
        | Ok (ONative _) => (Ok tt, self)
        | Raise e => (Raise e, self)
        end
    end.

End NumberModel.

(** ** [props.py]: text-valued properties *)

(** A rich-text span of the object API ([types.RichTextObject]): its kind,
    its rendered text and what else distinguishes two spans. *)
Inductive span_kind := KText | KEquation | KMention.

Record RichTextObject := mkSpan {
  span_kind_of : span_kind;
  plain_text_of : string;
  href : option string;
  bold : bool
}.

#[global] Instance span_kind_eq_dec : EqDecision span_kind.
Proof. solve_decision. Defined.
#[global] Instance RichTextObject_eq_dec : EqDecision RichTextObject.
Proof. solve_decision. Defined.

(** [TextObject[text]]: a plain text span. *)
Definition TextObject (text : string) : RichTextObject :=
  mkSpan KText text None false.

(** [''.join(parts)]. *)
Definition join (parts : list string) : string := String.concat "" parts.

(** Helpers of [ultimate_notion.text] and [ultimate_notion.utils] that are
    not part of the sources, and the interpreter's [hash] on strings.
    [chunky] cuts a string into the pieces the API accepts. *)
Class Helpers := {
  chunky : string -> list string;
  make_safe_python_name : string -> string;
  decapitalize : string -> string;
  py_hash : string -> Z
}.

Section TextModel.
Context `{Helpers}.

(** Modelled from the spec: [obj_api.text.rich_text] is not part of the
    sources.  It follows its sibling [RichText.from_plain_text]
    (objects.py l.87): one text span per chunk of each string. *)
Definition rich_text (text : list string) : list RichTextObject :=
  flat_map (fun s => map TextObject (chunky s)) text.

(** Modelled from the spec: [obj_api.text.plain_text] is not part of the
    sources.  It follows its sibling [RichText.to_plain_text]
    (objects.py l.99): the spans' plain texts joined. *)
Definition plain_text (rtf : list RichTextObject) : string :=
  join (map plain_text_of rtf).

(** [class Title]: [title: list[RichTextObject] = []].  The field is read
    with an [is None] test, hence the option. *)
Record Title := mkTitle { title : option (list RichTextObject) }.

(** [Title.__compose__] (l.77). *)
Definition Title_compose (text : list string) : Title :=
  mkTitle (Some (rich_text text)).

(** [Title.Value] (l.82). *)
Definition Title_Value (self : Title) : option string :=
  match title self with
  | None => None
  | Some spans => Some (plain_text spans)
  end.

(** [class RichText] of props.py: [rich_text: list[RichTextObject] = []]. *)
Record RichTextProp := mkRichTextProp { rich_text_field : option (list RichTextObject) }.

(** [RichText.__compose__] (l.101). *)
Definition RichTextProp_compose (text : list string) : RichTextProp :=
  mkRichTextProp (Some (rich_text text)).

(** [RichText.Value] (l.106). *)
Definition RichTextProp_Value (self : RichTextProp) : option string :=
  match rich_text_field self with
  | None => None
  | Some spans => Some (plain_text spans)
  end.

End TextModel.

(** ** [props.py]: properties that are one native field *)

(** An instance of a class that takes [__compose__] and [Value] from
    [NativeTypeMixin]: the class's type name and the instance's fields. *)
Record TypedObject (V : Type) := mkTyped {
  cls_type : option string;          (* [cls.type], when the class has one *)
  fields : gmap string V
}.
Arguments mkTyped {V} cls_type fields.
Arguments cls_type {V} t.
Arguments fields {V} t.

(** [NativeTypeMixin.__compose__] (l.37): the class called with the one
    keyword [cls.type] bound to [value]. *)
Definition NativeTypeMixin_compose {V} (cls : option string) (value : V)
  : result (TypedObject V) :=
  match cls with
  | Some ty => Ok (mkTyped cls {[ ty := value ]})
  | None => Raise NotImplementedError
  end.

(** [NativeTypeMixin.Value] (l.47): [getattr(self, cls.type)]. *)
Definition NativeTypeMixin_Value {V} (self : TypedObject V) : result V :=
  match cls_type self with
  | Some ty =>
      match fields self !! ty with
      | Some v => Ok v
      | None => Raise NotImplementedError
      end
  | None => Raise NotImplementedError
  end.

(** [class Checkbox(..., type="checkbox")]: [checkbox: bool | None]. *)
Definition Checkbox : Type := TypedObject (option bool).
Definition Checkbox_compose (v : option bool) : result Checkbox :=
  NativeTypeMixin_compose (Some "checkbox") v.

(** [class URL(..., type="url")]: [url: str | None]. *)
Definition URL : Type := TypedObject (option string).
Definition URL_compose (v : option string) : result URL :=
  NativeTypeMixin_compose (Some "url") v.

(** [class Email(..., type="email")]: [email: str | None]. *)
Definition Email : Type := TypedObject (option string).
Definition Email_compose (v : option string) : result Email :=
  NativeTypeMixin_compose (Some "email") v.

(** [class PhoneNumber(..., type="phone_number")]: [phone_number: str | None]. *)
Definition PhoneNumber : Type := TypedObject (option string).
Definition PhoneNumber_compose (v : option string) : result PhoneNumber :=
  NativeTypeMixin_compose (Some "phone_number") v.

(** ** [props.py]: [Status], [SelectValue], [SelectOne] *)

Inductive Color := Default | Gray | Brown | Orange | Yellow | Green | Blue
                 | Purple | Pink | Red.

#[global] Instance Color_eq_dec : EqDecision Color.
Proof. solve_decision. Defined.

(** [Status._NestedData]: [name: str = None], [id], [color]. *)
Record StatusData := mkStatusData {
  st_name : option string;
  st_id : option string;
  st_color : option Color
}.

(** [class Status]: [status: _NestedData | None = None]. *)
Record Status := mkStatus { status : option StatusData }.

(** What a [Status] is compared with. *)
Inductive status_operand :=
  | SNone
  | SStr (s : string)
  | SStatus (x : Status).

(** [self.status.name]: fails on a [Status] without data. *)
Definition Status_name (self : Status) : result (option string) :=
  match status self with
  | Some d => Ok (st_name d)
  | None => Raise (AttributeError "'NoneType' object has no attribute 'name'")
  end.

(** [Status.__eq__] (l.256). *)
Definition Status_eq (self : Status) (other : status_operand) : result bool :=
  match other with
  | SNone => Ok (bool_decide (status self = None))
  | SStatus o =>
      let* a := Status_name self in
      let* b := Status_name o in
      Ok (bool_decide (a = b))
  | SStr s =>
      let* a := Status_name self in
      Ok (bool_decide (a = Some s))
  end.

(** [Status.__compose__] (l.270). *)
Definition Status_compose (name : option string) (color : option Color)
  : result Status :=
  match name with
  | None => Raise (ValueError "'name' cannot be None")
  | Some _ => Ok (mkStatus (Some (mkStatusData name None color)))
  end.

(** [Status.Value] (l.283). *)
Definition Status_Value (self : Status) : result (option string) :=
  Status_name self.

(** [class SelectValue]: [name: str], [id], [color]. *)
Record SelectValue := mkSelectValue {
  sv_name : string;
  sv_id : option string;
  sv_color : option Color
}.

#[global] Instance SelectValue_eq_dec : EqDecision SelectValue.
Proof. solve_decision. Defined.

(** [SelectValue.__compose__] (l.301), reached as [SelectValue[value, color]]
    and as [SelectValue[value]]. *)
Definition SelectValue_compose (value : string) (color : option Color) : SelectValue :=
  mkSelectValue value None color.

(** [class SelectOne]: [select: SelectValue | None = None]. *)
Record SelectOne := mkSelectOne { select : option SelectValue }.

Inductive select_operand :=
  | SelNone
  | SelStr (s : string)
  | SelOne (x : SelectOne).

(** [self.select.name]. *)
Definition SelectOne_name (self : SelectOne) : result string :=
  match select self with
  | Some v => Ok (sv_name v)
  | None => Raise (AttributeError "'NoneType' object has no attribute 'name'")
  end.

(** [SelectOne.__eq__] (l.320) against a native operand:
    [other == self.select.name] is the comparison of two strings. *)
Definition SelectOne_eq_native (self : SelectOne) (other : option string)
  : result bool :=
  match other with
  | None => Ok (bool_decide (select self = None))
  | Some s => let* n := SelectOne_name self in Ok (bool_decide (s = n))
  end.

(** [SelectOne.__eq__] (l.320).  When [other] is a [SelectOne],
    [other == self.select.name] is [other.__eq__(self.select.name)]. *)
Definition SelectOne_eq (self : SelectOne) (other : select_operand)
  : result bool :=
  match other with
  | SelNone => SelectOne_eq_native self None
  | SelStr s => SelectOne_eq_native self (Some s)
  | SelOne o =>
      let* n := SelectOne_name self in
      SelectOne_eq_native o (Some n)
  end.

(** [SelectOne.__compose__] (l.331). *)
Definition SelectOne_compose (value : string) (color : option Color) : SelectOne :=
  mkSelectOne (Some (SelectValue_compose value color)).

(** [SelectOne.Value] (l.340): [str(self.select)] is the name. *)
Definition SelectOne_Value (self : SelectOne) : option string :=
  match select self with
  | None => None
  | Some v => Some (sv_name v)
  end.

(** ** [props.py]: [MultiSelect] *)

(** [str(x)] of an optional string, as an f-string interpolates it. *)
Definition py_str (x : option string) : string :=
  match x with
  | Some s => s
  | None => "None"
  end.

(** [x in l] on a Python list: some element is [==] to [x]. *)
Fixpoint py_in {A} `{EqDecision A} (x : A) (l : list A) : bool :=
  match l with
  | [] => false
  | y :: rest => if decide (y = x) then true else py_in x rest
  end.

(** [l.remove(x)]: drops the first element [==] to [x]; [None] stands for
    the [ValueError] of the interpreter when there is none. *)
Fixpoint py_list_remove {A} `{EqDecision A} (x : A) (l : list A) : option (list A) :=
  match l with
  | [] => None
  | y :: rest =>
      if decide (y = x) then Some rest
      else match py_list_remove x rest with
           | Some rest' => Some (y :: rest')
           | None => None
           end
  end.

(** [class MultiSelect]: [multi_select: list[SelectValue] = []]. *)
Record MultiSelect := mkMultiSelect { multi_select : list SelectValue }.

(** [MultiSelect.__contains__] (l.394): the loop over the options, by name.
    The argument is a name or [None]. *)
Fixpoint contains_name (opts : list SelectValue) (name : option string) : bool :=
  match opts with
  | [] => false
  | opt :: rest =>
      if decide (Some (sv_name opt) = name) then true
      else contains_name rest name
  end.

Definition MultiSelect_contains (self : MultiSelect) (name : option string) : bool :=
  contains_name (multi_select self) name.

(** [MultiSelect.append] (l.421), a loop over [*values] that may raise after
    it has already appended. *)
Fixpoint MultiSelect_append (values : list (option string)) : mut MultiSelect unit :=
  match values with
  | [] => mret tt
  | value :: rest =>
      match value with
      | None => mraise (ValueError "'None' is an invalid value")
      | Some v =>
          fun self =>
            let self' :=
              if negb (MultiSelect_contains self value)
              then mkMultiSelect (multi_select self ++ [SelectValue_compose v None])
              else self in
            MultiSelect_append rest self'
      end
  end.

(** [MultiSelect.remove] (l.431): keeps the options whose name is not among
    [values]. *)
Definition MultiSelect_remove (values : list (option string)) : mut MultiSelect unit :=
  fun self =>
    (Ok tt,
     mkMultiSelect
       (List.filter (fun opt => negb (py_in (Some (sv_name opt)) values))
                    (multi_select self))).

(** [MultiSelect.__iadd__] (l.374). *)
Definition MultiSelect_iadd (other : option string) : mut MultiSelect unit :=
  fun self =>
    if MultiSelect_contains self other
    then (Raise (ValueError (String.append "Duplicate item: " (py_str other))), self)
    else MultiSelect_append [other] self.

(** [MultiSelect.__isub__] (l.384). *)
Definition MultiSelect_isub (other : option string) : mut MultiSelect unit :=
  fun self =>
    if negb (MultiSelect_contains self other)
    then (Raise (ValueError (String.append "No such item: " (py_str other))), self)
    else MultiSelect_remove [other] self.

(** ** [props.py]: [Files] *)

(** [types.FileObject]: a named reference to a hosted or an external file. *)
Inductive file_kind := External | Hosted.

Record FileObject := mkFile {
  file_name : option string;
  file_type : file_kind;
  file_url : string
}.

#[global] Instance file_kind_eq_dec : EqDecision file_kind.
Proof. solve_decision. Defined.
#[global] Instance FileObject_eq_dec : EqDecision FileObject.
Proof. solve_decision. Defined.

(** [class Files]: [files: list[FileObject] = []]; [__contains__] reads the
    field with an [is None] test, hence the option. *)
Record Files := mkFiles { files : option (list FileObject) }.

(** The argument of [in]: "the given FileObject or name". *)
Inductive file_operand :=
  | FObj (f : FileObject)
  | FName (name : string).

(** [ref == other]: two file objects are compared by their fields; a file
    object is never equal to a string. *)
Definition file_eq (ref : FileObject) (other : file_operand) : bool :=
  match other with
  | FObj f => bool_decide (ref = f)
  | FName _ => false
  end.

(** [ref.name == other]. *)
Definition file_name_eq (ref : FileObject) (other : file_operand) : bool :=
  match other with
  | FObj _ => false
  | FName s => bool_decide (file_name ref = Some s)
  end.

Fixpoint contains_file (refs : list FileObject) (other : file_operand) : bool :=
  match refs with
  | [] => false
  | ref :: rest =>
      if file_eq ref other then true
      else if file_name_eq ref other then true
      else contains_file rest other
  end.

(** [Files.__contains__] (l.518). *)
Definition Files_contains (self : Files) (other : file_operand) : bool :=
  match files self with
  | None => false
  | Some refs => contains_file refs other
  end.

(** [Files.append] (l.580): [self.files.append(obj)]. *)
Definition Files_append (obj : FileObject) : mut Files unit :=
  fun self =>
    match files self with
    | None => (Raise (AttributeError "'NoneType' object has no attribute 'append'"), self)
    | Some refs => (Ok tt, mkFiles (Some (refs ++ [obj])))
    end.

(** [Files.remove] (l.587): [self.files.remove(obj)]. *)
Definition Files_remove (obj : FileObject) : mut Files unit :=
  fun self =>
    match files self with
    | None => (Raise (AttributeError "'NoneType' object has no attribute 'remove'"), self)
    | Some refs =>
        match py_list_remove obj refs with
        | Some refs' => (Ok tt, mkFiles (Some refs'))
        | None => (Raise (ValueError "list.remove(x): x not in list"), self)
        end
    end.

(** [Files.__iadd__] (l.562). *)
Definition Files_iadd (obj : FileObject) : mut Files unit :=
  fun self =>
    if Files_contains self (FObj obj)
    then (Raise (ValueError "Item exists"), self)
    else Files_append obj self.

(** [Files.__isub__] (l.571). *)
Definition Files_isub (obj : FileObject) : mut Files unit :=
  fun self =>
    if negb (Files_contains self (FObj obj))
    then (Raise (ValueError "No such item"), self)
    else Files_remove obj self.

(** ** [props.py]: [Relation] *)

(** [types.ObjectReference]: a reference to an object by its id. *)
Record ObjectReference := mkRef { ref_id : string }.

#[global] Instance ObjectReference_eq_dec : EqDecision ObjectReference.
Proof. solve_decision. Defined.

(** What may be handed over where a reference is expected. *)
Inductive ref_arg :=
  | ByObject (id : string)              (* a page, database or block *)
  | ById (id : string)                  (* its raw id *)
  | ByReference (r : ObjectReference).

(** Modelled from the spec: [types.ObjectReference.__compose__] is not part
    of the sources.  Section 4.4: a reference argument, "a
    page/database/block or its raw id", is normalised "into a canonical
    id". *)
Definition ObjectReference_compose (page : ref_arg) : ObjectReference :=
  match page with
  | ByObject id => mkRef id
  | ById id => mkRef id
  | ByReference r => r
  end.

(** [class Relation]: [relation: list[ObjectReference] = []], [has_more]. *)
Record Relation := mkRelation {
  relation : list ObjectReference;
  has_more : bool
}.

(** [Relation.__contains__] (l.685). *)
Definition Relation_contains (self : Relation) (page : ref_arg) : bool :=
  py_in (ObjectReference_compose page) (relation self).

(** [Relation.__iadd__] (l.713). *)
Definition Relation_iadd (page : ref_arg) : mut Relation unit :=
  fun self =>
    let ref := ObjectReference_compose page in
    if py_in ref (relation self)
    then (Raise (ValueError (String.append "Duplicate item: " (ref_id ref))), self)
    else (Ok tt, mkRelation (relation self ++ [ref]) (has_more self)).

(** [Relation.__isub__] (l.725).  The test is the one of the source:
    [if ref in self.relation: raise]. *)
Definition Relation_isub (page : ref_arg) : mut Relation unit :=
  fun self =>
    let ref := ObjectReference_compose page in
    if py_in ref (relation self)
    then (Raise (ValueError (String.append "No such item: " (ref_id ref))), self)
    else match py_list_remove ref (relation self) with
         | Some refs => (Ok tt, mkRelation refs (has_more self))
         | None => (Raise (ValueError "list.remove(x): x not in list"), self)
         end.

(** ** [objects.py]: the user-facing [RichText] *)

(** [RichTextBase]: a wrapper around one span of the object API.  A wrapper
    whose [obj_ref] is falsy has [None] here. *)
Record RichTextBase := mkRichTextBase { obj_ref : option RichTextObject }.

(** [class RichText(list[RichTextBase])]. *)
Definition RichText : Type := list RichTextBase.

(** [RichText.obj_ref] (l.70). *)
Definition RichText_obj_ref (self : RichText) : list (option RichTextObject) :=
  map obj_ref self.

(** [text.plain_text for text in self.obj_ref if text]. *)
Fixpoint truthy_plain_texts (refs : list (option RichTextObject)) : list string :=
  match refs with
  | [] => []
  | Some text :: rest => plain_text_of text :: truthy_plain_texts rest
  | None :: rest => truthy_plain_texts rest
  end.

(** [RichText.to_plain_text] (l.95). *)
Definition to_plain_text (self : RichText) : option string :=
  match self with
  | [] => None
  | _ => Some (join (truthy_plain_texts (RichText_obj_ref self)))
  end.

(** [RichText.__str__] (l.101). *)
Definition RichText_str (self : RichText) : string :=
  match to_plain_text self with
  | Some plain => plain
  | None => ""
  end.

(** What a [RichText] is compared with. *)
Inductive rich_operand :=
  | RStr (s : string)
  | RRich (r : RichText)
  | ROther.

(** [RichText.__eq__] (l.105); [None] is the [NotImplemented] of the last
    branch. *)
Definition RichText_eq (self : RichText) (other : rich_operand) : option bool :=
  match other with
  | RStr s => Some (bool_decide (RichText_str self = s))
  | RRich o => Some (bool_decide (RichText_str self = RichText_str o))
  | ROther => None
  end.

Section RichTextModel.
Context `{Helpers}.

(** [RichText.__hash__] (l.113). *)
Definition RichText_hash (self : RichText) : Z := py_hash (RichText_str self).

(** [RichText.from_plain_text] (l.87); [Text(part)] wraps a text span. *)
Definition from_plain_text (text : string) : RichText :=
  map (fun part => mkRichTextBase (Some (TextObject part))) (chunky text).

End RichTextModel.

(** ** Python dictionaries that are iterated *)

(** [d[k] = v] on a dictionary kept in insertion order: a key that is
    already there keeps its place and takes the new value. *)
Fixpoint dict_set {V} (k : string) (v : V) (d : list (string * V)) : list (string * V) :=
  match d with
  | [] => [(k, v)]
  | (k', v') :: rest =>
      if decide (k' = k) then (k, v) :: rest
      else (k', v') :: dict_set k v rest
  end.

(** ** The session: what went over the wire, and what was logged *)

Inductive ParentRef :=
  | PageRef (page_id : string)
  | DatabaseRef (database_id : string).

Inductive log_level := INFO | WARNING.

Section Payloads.
Context `{PyNum}.

(** A property value of the object API, as [prop.dict()] serialises it. *)
Inductive PropertyValue :=
  | PVTitle (v : Title)
  | PVRichText (v : RichTextProp)
  | PVNumber (v : Number)
  | PVCheckbox (v : Checkbox)
  | PVURL (v : URL)
  | PVEmail (v : Email)
  | PVPhoneNumber (v : PhoneNumber)
  | PVStatus (v : Status)
  | PVSelectOne (v : SelectOne)
  | PVMultiSelect (v : MultiSelect)
  | PVFiles (v : Files)
  | PVRelation (v : Relation).

(** Native Python values handed to [create_page]. *)
Inductive native :=
  | NNone
  | NStr (s : string)
  | NNum (n : num)
  | NBool (b : bool)
  | NStrs (l : list string).

(** A keyword value: a property value already (its [obj_ref]), or a native
    value still to be wrapped. *)
Inductive kwvalue :=
  | KProp (prop_obj_ref : PropertyValue)
  | KNative (v : native).

(** The body of [POST /pages] as [PagesEndpoint.create] assembles it, over
    the type of blocks.  In [req_properties] a key bound to [None] is a
    property sent as [null]; a key that is not bound is a property that is
    not sent. *)
Record page_request (Block : Type) := mkPageRequest {
  req_parent : ParentRef;
  req_properties : gmap string (option PropertyValue);
  req_children : option (list Block)
}.

Inductive api_call (Block : Type) :=
  | PagesCreate (request : page_request Block)
  | BlocksChildrenAppend (block_id : string) (children : list Block).

Record session_of (Block : Type) := mkSession {
  calls : list (api_call Block);
  log : list (log_level * string)
}.

End Payloads.

Arguments mkPageRequest {_ _} _ _ _.
Arguments req_parent {_ _} _.
Arguments req_properties {_ _} _.
Arguments req_children {_ _} _.
Arguments PagesCreate {_ _} _.
Arguments BlocksChildrenAppend {_ _} _ _.
Arguments mkSession {_ _} _ _.
Arguments calls {_ _} _.
Arguments log {_ _} _.

(** The response of [blocks.children.append]: [results] is [None] when the
    payload has no such key. *)
Record append_data (raw_block : Type) := mkAppendData {
  results : option (list raw_block)
}.
Arguments mkAppendData {_} _.
Arguments results {_} _.

(** The object API underneath and the raw client ([self.api.client]):
    blocks and the raw records the transport returns, [block.refresh]
    applied to a result record, [Page.parse_obj(data)], the two raw calls,
    and [prop_value_cls(value)], the constructor of the property-value class
    of a column type, returning the new value's [obj_ref].  None of them is
    part of the sources. *)
Class RawClient `{PyNum} := {
  Block : Type;
  raw_block : Type;
  raw_page : Type;
  PageObj : Type;
  Block_refresh : Block -> raw_block -> result Block;
  Page_parse_obj : raw_page -> result PageObj;
  raw_pages_create : page_request Block -> result raw_page;
  raw_children_append : string -> list Block -> result (append_data raw_block);
  prop_value_cls : PropertyType -> native -> result PropertyValue
}.

Section ApiModel.
Context `{Helpers} `{RawClient}.

Definition session : Type := session_of Block.

(** [logger.info] and [logger.warning]; a record keeps the text of the
    message, without the interpolated arguments. *)
Definition logger (level : log_level) (msg : string) : mut session unit :=
  fun ses => (Ok tt, mkSession (calls ses) (log ses ++ [(level, msg)])).

Definition record_call (c : api_call Block) : mut session unit :=
  fun ses => (Ok tt, mkSession (calls ses ++ [c]) (log ses)).

Definition lift {S A} (r : result A) : mut S A := fun s => (r, s).

(** ** [endpoints.py]: [PagesEndpoint.create] *)

(** What [create] may receive as [parent]. *)
Inductive parent_arg :=
  | ParentNone
  | ParentPage (id : string)
  | ParentDatabase (id : string)
  | ParentIsRef (r : ParentRef)
  | ParentOther.

(** The normalisation of [parent] in [PagesEndpoint.create] (l.344): a
    [Page] becomes a [PageRef], a [Database] a [DatabaseRef], a [ParentRef]
    is kept, anything else is refused. *)
Definition PagesEndpoint_parent (parent : parent_arg) : result ParentRef :=
  match parent with
  | ParentNone => Raise (ValueError "'parent' must be provided")
  | ParentPage id => Ok (PageRef id)
  | ParentDatabase id => Ok (DatabaseRef id)
  | ParentIsRef r => Ok r
  | ParentOther => Raise (ValueError "Unsupported 'parent'")
  end.

(** [PagesEndpoint.create] (l.338).  The call of [raw_api.create] is the
    request entering [calls], followed by the raw client's answer. *)
Definition PagesEndpoint_create
    (parent : parent_arg) (title : option string)
    (properties : option (gmap string (option PropertyValue)))
    (children : option (list (option Block))) : mut session PageObj :=
  do parent_ref <- lift (PagesEndpoint_parent parent) in
  let properties := default ∅ properties in
  let properties :=
    match title with
    | Some t => <[ "title" := Some (PVTitle (Title_compose [t])) ]> properties
    | None => properties
    end in
  let request :=
    mkPageRequest parent_ref properties
      (match children with
       | Some cs => Some (omap id cs)
       | None => None
       end) in
  do _ <- logger INFO "Creating page" in
  do _ <- record_call (PagesCreate request) in
  do data <- lift (raw_pages_create request) in
  lift (Page_parse_obj data).

(** ** [endpoints.py]: [BlocksEndpoint.ChildrenEndpoint.append] *)

(** The refresh loop of [append] (l.84): [blocks[idx]] is refreshed with
    [results[idx]], for every index.  It is entered with two lists of one length.  A [None]
    among the blocks has no [refresh]. *)
Fixpoint refresh_blocks (blocks : list (option Block)) (res : list raw_block)
  : result unit * list (option Block) :=
  match blocks, res with
  | block :: blocks', r :: res' =>
      match block with
      | None =>
          (Raise (AttributeError "'NoneType' object has no attribute 'refresh'"), blocks)
      | Some b =>
          match Block_refresh b r with
          | Raise e => (Raise e, blocks)
          | Ok b' =>
              let '(out, rest) := refresh_blocks blocks' res' in
              (out, Some b' :: rest)
          end
      end
  | _, _ => (Ok tt, blocks)
  end.

(** [ChildrenEndpoint.append] (l.66).  The state is the argument blocks,
    which [refresh] updates in place, and the session. *)
Definition ChildrenEndpoint_append (parent : ref_arg)
  : mut (list (option Block) * session) ref_arg :=
  fun '(blocks, ses) =>
    let parent_id := ref_id (ObjectReference_compose parent) in
    let children := omap id blocks in
    let '(_, ses) := logger INFO "Appending blocks" ses in
    let '(_, ses) := record_call (BlocksChildrenAppend parent_id children) ses in
    match raw_children_append parent_id children with
    | Raise e => (Raise e, (blocks, ses))
    | Ok data =>
        match results data with
        | Some res =>
            if decide (length blocks = length res) then
              match refresh_blocks blocks res with
              | (Ok _, blocks') => (Ok parent, (blocks', ses))
              | (Raise e, blocks') => (Raise e, (blocks', ses))
              end
            else
              let '(_, ses) :=
                logger WARNING "Unable to refresh results; size mismatch" ses in
              (Ok parent, (blocks, ses))
        | None =>
            let '(_, ses) :=
              logger WARNING "Unable to refresh results; not provided" ses in
            (Ok parent, (blocks, ses))
        end
    end.

(** ** [database.py]: schemas *)

(** A schema class: its columns in declaration order and the database it is
    bound to. *)
Record PageSchema := mkSchema {
  db_title : string;
  cols : list Column;
  bound_db : option string
}.

(** [PageSchema.get_cols]. *)
Definition get_cols (schema : PageSchema) : list Column := cols schema.

(** Modelled from the spec: [PageSchema.bind_db] is not part of the sources.
    Section 4.2: reflection "binds the resulting Schema to the database". *)
Definition bind_db (db : string) (schema : PageSchema) : PageSchema :=
  mkSchema (db_title schema) (cols schema) (Some db).

(** Modelled from the spec: [PageSchema.to_dict] is not part of the sources.
    Section 4.2 compares "column-key-to-type mappings": the dictionary from
    each column's server-side name to its type. *)
Definition to_dict (schema : PageSchema) : gmap string PropertyType :=
  fold_left (fun d col => <[ col_name col := col_type col ]> d) (get_cols schema) ∅.

(** Modelled from the spec: [PageSchema.is_consistent_with] is not part of
    the sources.  Section 3: two schemas are consistent "iff they have the
    same column keys/types regardless of attribute naming". *)
Definition is_consistent_with (schema other : PageSchema) : bool :=
  bool_decide (to_dict schema = to_dict other).

(** Modelled from the spec: [utils.dict_diff_str] is not part of the
    sources.  Section 4.2: "the diff must enumerate added/removed/changed
    columns by key".  The three components are the keys only in the second
    dictionary, the keys only in the first, and the shared keys whose values
    differ. *)
Definition dict_diff_str (dct1 dct2 : gmap string PropertyType)
  : gset string * gset string * gset string :=
  (dom dct2 ∖ dom dct1,
   dom dct1 ∖ dom dct2,
   filter (fun k => dct1 !! k ≠ dct2 !! k) (dom dct1 ∩ dom dct2)).

(** [obj_blocks.Database]: the raw database the wrapper refers to. *)
Record DatabaseObj := mkDatabaseObj {
  obj_id : string;
  obj_title : option (list RichTextObject);
  obj_properties : list (string * PropertyType)
}.

(** [class Database]: [obj_ref] and the cached [_schema]. *)
Record Database := mkDatabase {
  db_obj_ref : DatabaseObj;
  _schema : option PageSchema
}.

(** [Database.title] (l.39). *)
Definition Database_title (self : Database) : option string :=
  match obj_title (db_obj_ref self) with
  | None => None
  | Some [] => None
  | Some spans => Some (plain_text spans)
  end.

(** The dictionary comprehension of [_reflect_schema] (l.70). *)
Definition reflect_attrs (properties : list (string * PropertyType))
  : list (string * Column) :=
  fold_left
    (fun attrs '(k, v) =>
       let attr := decapitalize (make_safe_python_name k) in
       dict_set attr (mkColumn k v attr) attrs)
    properties [].

(** [Database._reflect_schema] (l.66).  The name of the generated class
    is not represented. *)
Definition _reflect_schema (self : Database) : PageSchema :=
  let title :=
    match Database_title self with
    | Some t => if decide (t = "") then "Untitled" else t
    | None => "Untitled"
    end in
  let attrs := reflect_attrs (obj_properties (db_obj_ref self)) in
  bind_db (obj_id (db_obj_ref self)) (mkSchema title (map snd attrs) None).

(** [Database.schema], the getter (l.78): reflects once and caches. *)
Definition schema_get (self : Database) : PageSchema * Database :=
  match _schema self with
  | Some schema => (schema, self)
  | None =>
      let schema := _reflect_schema self in
      (schema, mkDatabase (db_obj_ref self) (Some schema))
  end.

(** [Database.schema], the setter (l.84). *)
Definition schema_set (schema : PageSchema) : mut Database unit :=
  fun self =>
    let '(current, self) := schema_get self in
    if is_consistent_with current schema then
      (Ok tt,
       mkDatabase (db_obj_ref self)
                  (Some (bind_db (obj_id (db_obj_ref self)) schema)))
    else
      let '(current, self) := schema_get self in
      let '(cols_added, cols_removed, cols_changed) :=
        dict_diff_str (to_dict current) (to_dict schema) in
      (Raise (SchemaError (Inconsistent cols_added cols_removed cols_changed)), self).

(** ** [database.py]: [create_page] *)

(** [class Page]: a wrapper around the parsed page. *)
Record Page := mkPage { page_obj_ref : PageObj }.

(** [schema_kwargs] (l.126). *)
Definition schema_kwargs_of (schema : PageSchema) : gmap string Column :=
  fold_left (fun d col => <[ attr_name col := col ]> d) (get_cols schema) ∅.

(** The loop of [create_page] (l.133) that fills [schema_dct]. *)
Fixpoint fill_schema_dct (schema_kwargs : gmap string Column)
    (kwargs : list (string * kwvalue))
    (schema_dct : gmap string (option PropertyValue))
  : result (gmap string (option PropertyValue)) :=
  match kwargs with
  | [] => Ok schema_dct
  | (kwarg, value) :: rest =>
      match schema_kwargs !! kwarg with
      | None => Raise (KeyError kwarg)
      | Some col =>
          if readonly (col_type col) then Raise (ReadOnlyColumnError col)
          else
            let* prop_value :=
              match value with
              | KProp p => Ok p
              | KNative v => prop_value_cls (col_type col) v
              end in
            fill_schema_dct schema_kwargs rest
              (<[ col_name col := Some prop_value ]> schema_dct)
      end
  end.

(** [Database.create_page] (l.124).  The state is the database, whose schema
    cache the getter may fill, and the session. *)
Definition create_page (kwargs : list (string * kwvalue))
  : mut (Database * session) Page :=
  fun '(self, ses) =>
    let '(schema, self) := schema_get self in
    let schema_kwargs := schema_kwargs_of schema in
    let given : gset string := list_to_set (kwargs.*1) in
    if negb (bool_decide (given ⊆ dom schema_kwargs)) then
      (Raise (SchemaError (UndefinedKwargs (given ∖ dom schema_kwargs))), (self, ses))
    else
      match fill_schema_dct schema_kwargs kwargs ∅ with
      | Raise e => (Raise e, (self, ses))
      | Ok schema_dct =>
          match PagesEndpoint_create (ParentDatabase (obj_id (db_obj_ref self)))
                  None (Some schema_dct) None ses with
          | (Ok obj, ses') => (Ok (mkPage obj), (self, ses'))
          | (Raise e, ses') => (Raise e, (self, ses'))
          end
      end.

End ApiModel.

(** ** [props.py]: [MultiSelect.__compose__] and the per-type factory *)

(** [MultiSelect.__compose__] (l.414): one option per value that is not
    [None]. *)
Definition MultiSelect_compose (values : list (option string)) : MultiSelect :=
  mkMultiSelect (map (fun v => SelectValue_compose v None) (omap id values)).

(** Modelled from the spec: the property-value classes of
    [ultimate_notion.schema] are not part of the sources.  Section 4.1:
    "given a native scalar/composite (string, number, list of strings, etc.),
    compose the matching variant via a per-type factory".  The factory of
    each writable type is its [__compose__] of props.py. *)
Definition compose_property `{PyNum} `{Helpers} (t : PropertyType) (v : native)
  : result PropertyValue :=
  match t, v with
  | TTitle, NStr s => Ok (PVTitle (Title_compose [s]))
  | TRichText, NStr s => Ok (PVRichText (RichTextProp_compose [s]))
  | TNumber, NNum n => let* x := Number_compose (ONative (Some n)) in Ok (PVNumber x)
  | TNumber, NNone => let* x := Number_compose (ONative None) in Ok (PVNumber x)
  | TCheckbox, NBool b => let* x := Checkbox_compose (Some b) in Ok (PVCheckbox x)
  | TURL, NStr s => let* x := URL_compose (Some s) in Ok (PVURL x)
  | TEmail, NStr s => let* x := Email_compose (Some s) in Ok (PVEmail x)
  | TPhoneNumber, NStr s => let* x := PhoneNumber_compose (Some s) in Ok (PVPhoneNumber x)
  | TSelectOne, NStr s => Ok (PVSelectOne (SelectOne_compose s None))
  | TStatus, NStr s => let* x := Status_compose (Some s) None in Ok (PVStatus x)
  | TMultiSelect, NStrs l => Ok (PVMultiSelect (MultiSelect_compose (map Some l)))
  | _, _ => Raise (TypeError "value does not fit the column type")
  end.

(** ** Instances on which the model is run *)

(** Python numbers as exact rationals. *)
Definition py_rational : PyNum := {|
  num := Q;
  num_add := Qplus;
  num_sub := Qminus;
  num_mul := Qmult;
  num_div := fun x y => if Qeq_bool y 0 then None else Some (Qdiv x y);
  num_float := fun x => x;
  num_int := fun x => inject_Z (Z.quot (Qnum x) (Zpos (Qden x)))
|}.

(** A chunker that cuts a string every [S size] characters. *)
Fixpoint str_take (n : nat) (s : string) : string :=
  match n, s with
  | S n', String c s' => String c (str_take n' s')
  | _, _ => ""
  end.

Fixpoint str_drop (n : nat) (s : string) : string :=
  match n, s with
  | S n', String _ s' => str_drop n' s'
  | _, _ => s
  end.

Fixpoint chunks (fuel size : nat) (s : string) : list string :=
  match s with
  | "" => []
  | _ =>
      match fuel with
      | O => [s]
      | S fuel' => str_take (S size) s :: chunks fuel' size (str_drop (S size) s)
      end
  end.

Definition chunky_by (size : nat) (s : string) : list string :=
  chunks (String.length s) size s.

(** Identifiers: lower-case ASCII letters are kept, upper-case ones are
    lowered when they come first. *)
Definition lower_first (s : string) : string :=
  match s with
  | String c rest =>
      let n := Ascii.nat_of_ascii c in
      if bool_decide (65 <= n <= 90)%nat
      then String (Ascii.ascii_of_nat (n + 32)) rest
      else s
  | "" => ""
  end.

Definition demo_helpers : Helpers := {|
  chunky := chunky_by 2;
  make_safe_python_name := fun s => s;
  decapitalize := lower_first;
  py_hash := fun s => Z.of_nat (String.length s)
|}.

(** A raw client whose blocks are strings.  [blocks.children.append] answers
    with one result per child, except for the parents ["short"], where one
    result is missing, and ["bare"], where [results] is not provided. *)
Definition demo_client : @RawClient py_rational := {|
  Block := string;
  raw_block := string;
  raw_page := string;
  PageObj := string;
  Block_refresh := fun _ r => Ok r;
  Page_parse_obj := fun data => Ok data;
  raw_pages_create := fun _ => Ok "page";
  raw_children_append := fun parent_id children =>
    if decide (parent_id = "bare") then Ok (mkAppendData None)
    else if decide (parent_id = "short") then Ok (mkAppendData (Some (tail children)))
    else Ok (mkAppendData (Some children));
  prop_value_cls := @compose_property py_rational demo_helpers
|}.

Definition empty_session : @session py_rational demo_client := mkSession [] [].

(** The schema of the test fixture [article_db] (tests/conftest.py l.76). *)
Definition Article : PageSchema :=
  mkSchema "Articles"
    [ mkColumn "Name" TTitle "name";
      mkColumn "Cost" TNumber "cost";
      mkColumn "Description" TRichText "desc" ]
    None.

Definition article_obj : DatabaseObj :=
  mkDatabaseObj "db-articles" (Some [TextObject "Articles"])
    [ ("Name", TTitle); ("Cost", TNumber); ("Description", TRichText) ].

Definition article_db : Database :=
  mkDatabase article_obj (Some (bind_db "db-articles" Article)).

(** A database with the columns [A] and [B] whose schema is still to be
    reflected, and a user schema that declares [A] only. *)
Definition ab_db : Database :=
  mkDatabase (mkDatabaseObj "db-ab" None [ ("A", TTitle); ("B", TNumber) ]) None.

Definition only_A : PageSchema := mkSchema "AB" [ mkColumn "A" TTitle "first" ] None.

Definition renamed_AB : PageSchema :=
  mkSchema "AB" [ mkColumn "A" TTitle "first"; mkColumn "B" TNumber "second" ] None.

(** A database with a formula column. *)
Definition task_db : Database :=
  mkDatabase (mkDatabaseObj "db-tasks" None [])
    (Some (mkSchema "My Tasks"
             [ mkColumn "Task" TTitle "task";
               mkColumn "Done" TFormula "done";
               mkColumn "URL" TURL "url" ]
             (Some "db-tasks"))).

(* ================================================================== *)
(** * Part I, continued. The rest of the property values               *)
(* ================================================================== *)

(** ** [props.py]: indexing, [Values], [__str__] *)

(** The outcome of a [__getitem__] by position: an item, or [IndexError]
    with its message. *)
Inductive indexed (A : Type) :=
  | Item (a : A)
  | IndexError (msg : string).
Arguments Item {A} a.
Arguments IndexError {A} msg.

(** [l[index]] on a Python list: a negative index counts from the end. *)
Definition py_list_getitem {A} (l : list A) (index : Z) : indexed A :=
  let n := Z.of_nat (length l) in
  let i := if decide (index < 0)%Z then (index + n)%Z else index in
  if decide (0 <= i < n)%Z then
    match l !! Z.to_nat i with
    | Some a => Item a
    | None => IndexError "list index out of range"
    end
  else IndexError "list index out of range".

(** The body shared by [MultiSelect.__getitem__] (l.363),
    [People.__getitem__] (l.479) and [Relation.__getitem__] (l.702), over
    the list field of the class. *)
Definition field_getitem {A} (field : option (list A)) (index : Z) : indexed A :=
  match field with
  | None => IndexError "empty property"
  | Some l =>
      if decide (index > Z.of_nat (length l))%Z
      then IndexError "index out of range"
      else py_list_getitem l index
  end.

Definition MultiSelect_getitem (self : MultiSelect) (index : Z) : indexed SelectValue :=
  field_getitem (Some (multi_select self)) index.

Definition Relation_getitem (self : Relation) (index : Z) : indexed ObjectReference :=
  field_getitem (Some (relation self)) index.

(** [SelectValue.__str__] (l.297). *)
Definition SelectValue_str (self : SelectValue) : string := sv_name self.

(** [MultiSelect.Values] (l.436).  The test [val.name is not None] holds of
    every option, [name] being a [str]. *)
Definition MultiSelect_Values (self : MultiSelect) : list string :=
  map SelectValue_str (multi_select self).

(** [MultiSelect.__len__] (l.359). *)
Definition MultiSelect_len (self : MultiSelect) : nat := length (multi_select self).

(** [MultiSelect.__str__] (l.355). *)
Definition MultiSelect_str (self : MultiSelect) : string :=
  String.concat ", " (MultiSelect_Values self).

(** [value or ""] on an optional string. *)
Definition or_empty (value : option string) : string :=
  match value with
  | Some s => s
  | None => ""
  end.

(** [Status.__str__] (l.252). *)
Definition Status_str (self : Status) : result string :=
  let* value := Status_Value self in Ok (or_empty value).

(** [SelectOne.__str__] (l.316). *)
Definition SelectOne_str (self : SelectOne) : string :=
  or_empty (SelectOne_Value self).

(** The loop of [Files.__getitem__] (l.556). *)
Fixpoint file_by_name (refs : list FileObject) (name : string) : option FileObject :=
  match refs with
  | [] => None
  | ref :: rest =>
      if decide (file_name ref = Some name) then Some ref
      else file_by_name rest name
  end.

(** [Files.__getitem__] (l.550): [None] without a list, the first file of
    that name, or [AttributeError]. *)
Definition Files_getitem (self : Files) (name : string) : result (option FileObject) :=
  match files self with
  | None => Ok None
  | Some refs =>
      match file_by_name refs name with
      | Some ref => Ok (Some ref)
      | None => Raise (AttributeError "No such file")
      end
  end.

(** ** [props.py]: [NativeTypeMixin.__eq__], [__ne__], [__str__] *)

(** What a [NativeTypeMixin] value is compared with: a native value, or
    another value of a class with the mixin. *)
Inductive mixin_operand (V : Type) :=
  | MNative (v : V)
  | MObject (o : TypedObject V).
Arguments MNative {V} v.
Arguments MObject {V} o.

(** [NativeTypeMixin.__eq__] (l.24): [other == self.Value].  With a native
    [other] this is the comparison of two native values; with an object it
    is [other.__eq__(self.Value)], hence [self.Value == other.Value]. *)
Definition NativeTypeMixin_eq {V} `{EqDecision V}
    (self : TypedObject V) (other : mixin_operand V) : result bool :=
  let* value := NativeTypeMixin_Value self in
  match other with
  | MNative v => Ok (bool_decide (v = value))
  | MObject o =>
      let* theirs := NativeTypeMixin_Value o in
      Ok (bool_decide (value = theirs))
  end.

(** [NativeTypeMixin.__ne__] (l.33). *)
Definition NativeTypeMixin_ne {V} `{EqDecision V}
    (self : TypedObject V) (other : mixin_operand V) : result bool :=
  let* b := NativeTypeMixin_eq self other in Ok (negb b).

(** [NativeTypeMixin.__str__] (l.14) on a class whose native value is an
    optional string ([URL], [Email], [PhoneNumber]). *)
Definition NativeTypeMixin_str (self : TypedObject (option string)) : result string :=
  let* value := NativeTypeMixin_Value self in
  Ok (match value with
      | None => ""
      | Some s => s
      end).

(** ** [props.py]: [Date] *)

(** Python's dates: the carrier, [<=] on it. *)
Class PyDate := {
  date : Type;
  date_le : date -> date -> bool
}.

Section DateModel.
Context `{PyDate}.

(** [types.DateRange]: [start] and an optional [end]. *)
Record DateRange := mkDateRange {
  range_start : date;
  range_end : option date
}.

(** [class Date]: [date: DateRange | None = None]. *)
Record Date := mkDate { date_field : option DateRange }.

(** [Date.__compose__] (l.217). *)
Definition Date_compose (start : date) (end_ : option date) : Date :=
  mkDate (Some (mkDateRange start end_)).

(** [Date.IsRange] (l.222). *)
Definition Date_IsRange (self : Date) : bool :=
  match date_field self with
  | None => false
  | Some r => bool_decide (range_end r <> None)
  end.

(** [Date.Start] (l.231) and [Date.End] (l.236). *)
Definition Date_Start (self : Date) : option date :=
  match date_field self with
  | None => None
  | Some r => Some (range_start r)
  end.

Definition Date_End (self : Date) : option date :=
  match date_field self with
  | None => None
  | Some r => range_end r
  end.

(** [a <= b] where either side may be [None], which has no order. *)
Definition py_le (a b : option date) : result bool :=
  match a, b with
  | Some x, Some y => Ok (date_le x y)
  | _, _ => Raise (TypeError "'<=' not supported")
  end.

(** [Date.__contains__] (l.202): [self.Start <= other <= self.End], a
    chained comparison that stops at the first false link. *)
Definition Date_contains (self : Date) (other : date) : result bool :=
  if negb (Date_IsRange self) then Raise (ValueError "This date is not a range")
  else
    let* low := py_le (Date_Start self) (Some other) in
    if low then py_le (Some other) (Date_End self) else Ok false.

End DateModel.

(** ** [props.py]: comparisons of [Number] *)

(** The interpreter's [<] and [==] on numbers. *)
Class PyOrd `{PyNum} := {
  num_ltb : num -> num -> bool;
  num_eqb : num -> num -> bool
}.

Section NumberOrder.
Context `{PyOrd}.

(** [a < b] on native values; [b > a] is the same comparison. *)
Definition native_lt (a b : native_num) : result bool :=
  match a, b with
  | Some x, Some y => Ok (num_ltb x y)
  | _, _ => Raise (TypeError "'<' not supported")
  end.

(** [a == b] on native values. *)
Definition native_eq (a b : native_num) : bool :=
  match a, b with
  | Some x, Some y => num_eqb x y
  | None, None => true
  | _, _ => false
  end.

(** The native value an operand is compared by: when the operand is a
    [Number], [other > v] is [other.__gt__(v)], that is [v < other.Value],
    and likewise for [<] and [==]. *)
Definition operand_value (other : operand) : native_num :=
  match other with
  | ONative v => v
  | ONumber o => Number_Value o
  end.

(** [Number.__lt__] (l.173): [other > self.Value]. *)
Definition Number_lt (self : Number) (other : operand) : result bool :=
  native_lt (Number_Value self) (operand_value other).

(** [Number.__gt__] (l.181): [other < self.Value]. *)
Definition Number_gt (self : Number) (other : operand) : result bool :=
  native_lt (operand_value other) (Number_Value self).

(** [Number.__eq__], from [NativeTypeMixin] (l.24): [other == self.Value];
    when [other] is a [Number] this is [other.__eq__(self.Value)], that is
    [self.Value == other.Value]. *)
Definition Number_eq (self : Number) (other : operand) : bool :=
  match other with
  | ONative v => native_eq v (Number_Value self)
  | ONumber o => native_eq (Number_Value self) (Number_Value o)
  end.

(** [Number.__le__] (l.169): [self < other or self == other]. *)
Definition Number_le (self : Number) (other : operand) : result bool :=
  let* less := Number_lt self other in
  if less then Ok true else Ok (Number_eq self other).

(** [Number.__ge__] (l.177): [self > other or self == other]. *)
Definition Number_ge (self : Number) (other : operand) : result bool :=
  let* greater := Number_gt self other in
  if greater then Ok true else Ok (Number_eq self other).

End NumberOrder.

(** ** [props.py]: [Formula] and its results *)

(** How the interpreter prints and tests the values a formula may hold:
    [str(x)] and the truth value of a number, [str(d)] of a date range. *)
Class PyRepr `{PyNum} `{PyDate} := {
  num_str : num -> string;
  num_truthy : num -> bool;
  DateRange_str : DateRange -> string
}.

Section FormulaModel.
Context `{PyRepr}.

(** The subclasses of [FormulaResult] (l.595-652), each with its one field;
    [FormulaResultBase] is an instance of the base class itself. *)
Inductive FormulaResult :=
  | StringFormula (string : option String.string)
  | NumberFormula (number : native_num)
  | DateFormula (date : option DateRange)
  | BooleanFormula (boolean : option bool)
  | FormulaResultBase.

(** A Python value as [Result] returns it. *)
Inductive pyvalue :=
  | VNone
  | VStr (s : string)
  | VNum (n : num)
  | VDate (d : DateRange)
  | VBool (b : bool).

Definition inject {A} (f : A -> pyvalue) (x : option A) : pyvalue :=
  match x with
  | Some a => f a
  | None => VNone
  end.

(** [Result] of each subclass (l.616, 627, 638, 649) and of the base class
    (l.605). *)
Definition FormulaResult_Result (self : FormulaResult) : result pyvalue :=
  match self with
  | StringFormula s => Ok (inject VStr s)
  | NumberFormula n => Ok (inject VNum n)
  | DateFormula d => Ok (inject VDate d)
  | BooleanFormula b => Ok (inject VBool b)
  | FormulaResultBase => Raise NotImplementedError
  end.

(** The truth value of a Python value and [str] of it; a date range is an
    object and tests true. *)
Definition truthy (v : pyvalue) : bool :=
  match v with
  | VNone => false
  | VStr s => negb (bool_decide (s = ""))
  | VNum n => num_truthy n
  | VDate _ => true
  | VBool b => b
  end.

Definition py_str_value (v : pyvalue) : string :=
  match v with
  | VNone => "None"
  | VStr s => s
  | VNum n => num_str n
  | VDate d => DateRange_str d
  | VBool true => "True"
  | VBool false => "False"
  end.

(** [x or ""]. *)
Definition or_empty_value (v : pyvalue) : pyvalue :=
  if truthy v then v else VStr "".

(** [FormulaResult.__str__] (l.601): [return self.Result or ""].  [str()]
    refuses what is not a string. *)
Definition FormulaResult_str (self : FormulaResult) : result string :=
  let* value := FormulaResult_Result self in
  match or_empty_value value with
  | VStr s => Ok s
  | _ => Raise (TypeError "__str__ returned non-string")
  end.

(** [class Formula]: [formula: FormulaResult | None = None]. *)
Record Formula := mkFormula { formula : option FormulaResult }.

(** [Formula.Result] (l.664). *)
Definition Formula_Result (self : Formula) : result pyvalue :=
  match formula self with
  | None => Ok VNone
  | Some r => FormulaResult_Result r
  end.

(** [Formula.__str__] (l.660): [str(self.Result or "")]. *)
Definition Formula_str (self : Formula) : result string :=
  let* value := Formula_Result self in
  Ok (py_str_value (or_empty_value value)).

End FormulaModel.

(** ** [objects.py]: [User] *)

(** [objs.User] as far as the wrapper reads it. *)
Record UserObj := mkUserObj {
  user_id : string;
  user_name : option string;
  avatar_url : option string
}.

(** [class User]: a wrapper around [obj_ref]. *)
Record User := mkUser { user_obj_ref : UserObj }.

(** [User.id] (l.137) and [User.name] (l.141). *)
Definition User_id (self : User) : string := user_id (user_obj_ref self).
Definition User_name (self : User) : option string := user_name (user_obj_ref self).

(** What a [User] is compared with: an object with an [id] attribute, or
    one without ([None], a string). *)
Inductive user_operand :=
  | WithId (id : string)
  | WithoutId.

Definition as_operand (u : User) : user_operand := WithId (User_id u).

(** [User.__eq__] (l.131): [self.id == other.id]. *)
Definition User_eq (self : User) (other : user_operand) : result bool :=
  match other with
  | WithId id => Ok (bool_decide (User_id self = id))
  | WithoutId => Raise (AttributeError "object has no attribute 'id'")
  end.

(** [User.__hash__] (l.134): [hash(self.id)], ids being kept as strings. *)
Definition User_hash `{Helpers} (self : User) : Z := py_hash (User_id self).

(** ** [endpoints.py]: [DatabasesEndpoint] and [PagesEndpoint.set] *)

(** The body [_build_request] assembles; a field is [None] when the key is
    not in the dictionary.  A column of the schema is its type, and a column
    bound to [None] is sent as [null]. *)
Record database_request := mkDatabaseRequest {
  rq_parent : option ParentRef;
  rq_title : option (list RichTextObject);
  rq_properties : option (gmap string (option PropertyType))
}.

(** [DatabasesEndpoint._build_request] (l.186). *)
Definition _build_request (parent : option ParentRef)
    (schema : option (gmap string (option PropertyType)))
    (title : option string) : database_request :=
  mkDatabaseRequest
    parent
    (match title with
     | Some t => Some [TextObject t]
     | None => None
     end)
    schema.

(** [if request:], the truth value of the dictionary: it has a key. *)
Definition request_nonempty (request : database_request) : bool :=
  match rq_parent request, rq_title request, rq_properties request with
  | None, None, None => false
  | _, _, _ => true
  end.

(** A setting of [PagesEndpoint.set]: [False] (leave it), [None] (remove
    it), or a value. *)
Inductive setting (A : Type) :=
  | Leave
  | Remove
  | Assign (a : A).
Arguments Leave {A}.
Arguments Remove {A}.
Arguments Assign {A} a.

Inductive icon := IconFile (f : FileObject) | IconEmoji (emoji : string).

(** The keyword arguments [set] hands to [pages.update]: a field is [None]
    when the key is absent, [Some None] when it is the empty object. *)
Record page_update := mkPageUpdate {
  up_cover : option (option FileObject);
  up_icon : option (option icon);
  up_archived : option bool
}.

Inductive update_call :=
  | DatabasesUpdate (database_id : string) (request : database_request)
  | PagesUpdate (page_id : string) (props : page_update).

(** The raw client under the two endpoints, and [refresh] of the object
    API; not part of the sources. *)
Class UpdateClient := {
  raw_database : Type;
  raw_page_data : Type;
  PageRecord : Type;
  page_id_of : PageRecord -> string;
  raw_databases_update : string -> database_request -> result raw_database;
  raw_pages_update : string -> page_update -> result raw_page_data;
  DatabaseObj_refresh : DatabaseObj -> raw_database -> result DatabaseObj;
  PageRecord_refresh : PageRecord -> raw_page_data -> result PageRecord
}.

Section UpdateModel.
Context `{UpdateClient}.

Record update_session := mkUpdateSession {
  update_calls : list update_call;
  update_log : list (log_level * string)
}.

Definition update_logger (level : log_level) (msg : string) : mut update_session unit :=
  fun ses => (Ok tt, mkUpdateSession (update_calls ses) (update_log ses ++ [(level, msg)])).

Definition update_record (c : update_call) : mut update_session unit :=
  fun ses => (Ok tt, mkUpdateSession (update_calls ses ++ [c]) (update_log ses)).

Definition update_lift {A} (r : result A) : mut update_session A := fun s => (r, s).

(** [DatabasesEndpoint.update] (l.246). *)
Definition DatabasesEndpoint_update (dbref : DatabaseObj) (title : option string)
    (schema : option (gmap string (option PropertyType)))
  : mut update_session DatabaseObj :=
  let dbid := obj_id dbref in
  do _ <- update_logger INFO "Updating database info" in
  let request := _build_request None schema title in
  if request_nonempty request then
    do _ <- update_record (DatabasesUpdate dbid request) in
    do data <- update_lift (raw_databases_update dbid request) in
    update_lift (DatabaseObj_refresh dbref data)
  else mret dbref.

(** The three tests of [PagesEndpoint.set] (l.443, 450, 457), each with the
    record it logs. *)
Definition set_cover (cover : setting FileObject)
  : option (option FileObject) * list (log_level * string) :=
  match cover with
  | Remove => (Some None, [(INFO, "Removing page cover")])
  | Assign c => (Some (Some c), [(INFO, "Setting page cover")])
  | Leave => (None, [])
  end.

Definition set_icon (icon_ : setting icon)
  : option (option icon) * list (log_level * string) :=
  match icon_ with
  | Remove => (Some None, [(INFO, "Removing page icon")])
  | Assign i => (Some (Some i), [(INFO, "Setting page icon")])
  | Leave => (None, [])
  end.

Definition set_archived (archived : option bool)
  : option bool * list (log_level * string) :=
  match archived with
  | Some false => (Some false, [(INFO, "Restoring page")])
  | Some true => (Some true, [(INFO, "Archiving page")])
  | None => (None, [])
  end.

(** [PagesEndpoint.set] (l.431). *)
Definition PagesEndpoint_set (page : PageRecord) (cover : setting FileObject)
    (icon_ : setting icon) (archived : option bool)
  : mut update_session PageRecord :=
  fun ses =>
    let page_id := page_id_of page in
    let '(c, log_c) := set_cover cover in
    let '(i, log_i) := set_icon icon_ in
    let '(a, log_a) := set_archived archived in
    let props := mkPageUpdate c i a in
    let ses :=
      mkUpdateSession (update_calls ses ++ [PagesUpdate page_id props])
                      (update_log ses ++ log_c ++ log_i ++ log_a) in
    match raw_pages_update page_id props with
    | Raise e => (Raise e, ses)
    | Ok data => (PageRecord_refresh page data, ses)
    end.

(** [PagesEndpoint.delete] (l.374) and [PagesEndpoint.restore] (l.382). *)
Definition PagesEndpoint_delete (page : PageRecord) : mut update_session PageRecord :=
  PagesEndpoint_set page Leave Leave (Some true).

Definition PagesEndpoint_restore (page : PageRecord) : mut update_session PageRecord :=
  PagesEndpoint_set page Leave Leave (Some false).

End UpdateModel.

(** ** [database.py]: [Database.__str__] *)

(** [Database.__str__] (l.29): the title, when there is one and it is not
    empty. *)
Definition Database_str (self : Database) : string :=
  match Database_title self with
  | Some t => if decide (t = "") then "Untitled" else t
  | None => "Untitled"
  end.

(** ** Further instances on which the model is run *)

(** Dates as day numbers. *)
Definition py_days : PyDate := {|
  date := Z;
  date_le := Z.leb
|}.

Definition py_rational_ord : @PyOrd py_rational :=
  @Build_PyOrd py_rational
    (fun x y : Q => negb (Qle_bool y x))
    Qeq_bool.

(** Decimal printing of integers. *)
Fixpoint digits (fuel : nat) (n : N) (acc : string) : string :=
  match fuel with
  | O => acc
  | S fuel' =>
      let acc' := String (Ascii.ascii_of_N (48 + N.modulo n 10)) acc in
      if N.eqb (N.div n 10) 0 then acc' else digits fuel' (N.div n 10) acc'
  end.

Definition Z_str (z : Z) : string :=
  match z with
  | Z0 => "0"
  | Zpos p => digits (N.size_nat (Npos p)) (Npos p) ""
  | Zneg p => String.append "-" (digits (N.size_nat (Npos p)) (Npos p) "")
  end.

(** Numbers print as a fraction, date ranges as their two day numbers. *)
Definition py_repr : @PyRepr py_rational py_days :=
  @Build_PyRepr py_rational py_days
    (fun q : Q =>
       String.append (Z_str (Qnum q)) (String.append "/" (Z_str (Zpos (Qden q)))))
    (fun q : Q => negb (Qeq_bool q 0))
    (fun r : @DateRange py_days =>
       String.append (Z_str (range_start r : Z))
         (match range_end r with
          | Some e => String.append " - " (Z_str (e : Z))
          | None => ""
          end)).

(** An update client whose pages and raw records are strings: a refresh
    replaces a page by the record returned, and a database by itself. *)
Definition demo_update_client : UpdateClient := {|
  raw_database := string;
  raw_page_data := string;
  PageRecord := string;
  page_id_of := fun p => p;
  raw_databases_update := fun _ _ => Ok "database";
  raw_pages_update := fun id _ => Ok id;
  DatabaseObj_refresh := fun db _ => Ok db;
  PageRecord_refresh := fun _ data => Ok data
|}.

(* ================================================================== *)
(** * Part II. Properties                                              *)
(* ================================================================== *)

Ltac raise_now := eexists; reflexivity.

(** ** Numbers *)

Section NumberProperties.
Context `{PyNum}.

Lemma native_binop_None_l op b : raises (native_binop op None b).
Proof. unfold raises, native_binop. eauto. Qed.

Lemma native_binop_None_r op a : raises (native_binop op a None).
Proof. unfold raises, native_binop. destruct a; eauto. Qed.

Lemma rbind_raises {A B} (c : result A) (k : A -> result B) :
  raises c -> raises (rbind c k).
Proof. intros [e ->]. exists e. reflexivity. Qed.

Lemma Number_method_None_raises op m (x : Number) other :
  number x = None -> Number_method op = Some m -> raises (m x other).
Proof.
  intros Hx Hm. destruct x as [n]; simpl in Hx; subst n.
  destruct op; simpl in Hm; inversion Hm; subst m; clear Hm;
    destruct other as [[v |] | [[o |]]]; cbn; raise_now.
Qed.

Lemma py_binop_None_left op (x : Number) other :
  number x = None -> raises (py_binop op (ONumber x) other).
Proof.
  intros Hx. unfold py_binop.
  destruct (Number_method op) as [m |] eqn:Hm; [| raise_now].
  apply rbind_raises. eapply Number_method_None_raises; eauto.
Qed.

Lemma py_binop_None_right op (x : Number) other :
  number x = None -> raises (py_binop op other (ONumber x)).
Proof.
  intros Hx. destruct x as [n]; simpl in Hx; subst n.
  destruct other as [a | [[o |]]]; destruct op; cbn; raise_now.
Qed.

Lemma py_augassign_None op (x : Number) other :
  number x = None ->
  raises (py_augassign op other x).1 /\ (py_augassign op other x).2 = x.
Proof.
  intros Hx.
  assert (Hin : forall o, raises (Number_inplace o other x).1
                          /\ (Number_inplace o other x).2 = x).
  { intros o. unfold Number_inplace. rewrite Hx. cbn. split; [raise_now | done]. }
  destruct op; unfold py_augassign; try apply Hin.
  - destruct (py_binop_None_left OpMul x other Hx) as [e He].
    rewrite He. split; [raise_now | done].
  - destruct (py_binop_None_left OpTrueDiv x other Hx) as [e He].
    rewrite He. split; [raise_now | done].
Qed.

Lemma truediv_undefined_left (y : Number) other :
  py_binop OpTrueDiv (ONumber y) other = Raise (TypeError "unsupported operand type(s)").
Proof. reflexivity. Qed.

Lemma truediv_undefined_right (y : Number) other :
  py_binop OpTrueDiv other (ONumber y) = Raise (TypeError "unsupported operand type(s)").
Proof. destruct other; reflexivity. Qed.

(** C7.  A [Number] whose native number is [None] fails explicitly in
    arithmetic: [+], [-], [*] and [/] with it on either side raise, the
    augmented assignments raise and leave it as it was, [float()] and [int()]
    raise [ValueError]; no operation returns a number.  Division of any
    [Number] whatsoever raises [TypeError]: the class defines no division. *)
Theorem Number_None_arithmetic_fails (x : Number) :
  number x = None ->
  (forall op other,
      raises (py_binop op (ONumber x) other)
      /\ raises (py_binop op other (ONumber x))
      /\ raises (py_augassign op other x).1
      /\ (py_augassign op other x).2 = x)
  /\ Number_float x = Raise (ValueError "Cannot convert 'None' to float")
  /\ Number_int x = Raise (ValueError "Cannot convert 'None' to int")
  /\ (forall (y : Number) other,
        py_binop OpTrueDiv (ONumber y) other
          = Raise (TypeError "unsupported operand type(s)")
        /\ py_binop OpTrueDiv other (ONumber y)
          = Raise (TypeError "unsupported operand type(s)")).
Proof.
  intros Hx. split; [| split; [| split]].
  - intros op other. split; [| split].
    + by apply py_binop_None_left.
    + by apply py_binop_None_right.
    + by apply py_augassign_None.
  - unfold Number_float. by rewrite Hx.
  - unfold Number_int. by rewrite Hx.
  - intros y other. split.
    + apply truediv_undefined_left.
    + apply truediv_undefined_right.
Qed.

End NumberProperties.

(** ** Select options *)

Lemma Status_eq_by_name (a b : StatusData) :
  Status_eq (mkStatus (Some a)) (SStatus (mkStatus (Some b)))
  = Ok (bool_decide (st_name a = st_name b)).
Proof. reflexivity. Qed.

Lemma SelectOne_eq_by_name (a b : SelectValue) :
  SelectOne_eq (mkSelectOne (Some a)) (SelOne (mkSelectOne (Some b)))
  = Ok (bool_decide (sv_name a = sv_name b)).
Proof. reflexivity. Qed.

(** C6.  Two [Status] values, and two [SelectOne] values, that carry options
    with the same name compare equal whatever their ids and colours are; the
    comparison of two values that carry options is the comparison of the
    names. *)
Theorem select_equality_by_name :
  (forall n i j c d,
      Status_eq (mkStatus (Some (mkStatusData n i c)))
                (SStatus (mkStatus (Some (mkStatusData n j d)))) = Ok true)
  /\ (forall n i j c d,
      SelectOne_eq (mkSelectOne (Some (mkSelectValue n i c)))
                   (SelOne (mkSelectOne (Some (mkSelectValue n j d)))) = Ok true)
  /\ (forall a b : StatusData,
      Status_eq (mkStatus (Some a)) (SStatus (mkStatus (Some b)))
      = Ok (bool_decide (st_name a = st_name b)))
  /\ (forall a b : SelectValue,
      SelectOne_eq (mkSelectOne (Some a)) (SelOne (mkSelectOne (Some b)))
      = Ok (bool_decide (sv_name a = sv_name b))).
Proof.
  split; [| split; [| split]]; intros.
  - rewrite Status_eq_by_name. cbn. by rewrite bool_decide_eq_true_2.
  - rewrite SelectOne_eq_by_name. cbn. by rewrite bool_decide_eq_true_2.
  - apply Status_eq_by_name.
  - apply SelectOne_eq_by_name.
Qed.

(** ** Collections: [MultiSelect], [Files], [Relation] *)

Lemma py_in_app {A} `{EqDecision A} (x : A) l1 l2 :
  py_in x (l1 ++ l2) = py_in x l1 || py_in x l2.
Proof.
  induction l1 as [| y l1 IH]; simpl; [done |].
  destruct (decide (y = x)); [done | apply IH].
Qed.

Lemma py_in_self {A} `{EqDecision A} (x : A) l : py_in x (l ++ [x]) = true.
Proof.
  rewrite py_in_app. simpl. rewrite decide_True by done.
  apply orb_true_r.
Qed.

Lemma py_list_remove_absent {A} `{EqDecision A} (x : A) l :
  py_in x l = false -> py_list_remove x l = None.
Proof.
  induction l as [| y l IH]; simpl; [done |].
  destruct (decide (y = x)); [done |].
  intros Hin. by rewrite IH.
Qed.

Lemma py_list_remove_present {A} `{EqDecision A} (x : A) l :
  py_in x l = true -> exists l', py_list_remove x l = Some l'.
Proof.
  induction l as [| y l IH]; simpl; [done |].
  destruct (decide (y = x)); [eauto |].
  intros Hin. destruct (IH Hin) as [l' ->]. eauto.
Qed.

Lemma contains_name_app opts1 opts2 name :
  contains_name (opts1 ++ opts2) name
  = contains_name opts1 name || contains_name opts2 name.
Proof.
  induction opts1 as [| opt opts1 IH]; simpl; [done |].
  destruct (decide (Some (sv_name opt) = name)); [done | apply IH].
Qed.

Lemma contains_name_filter opts (v : string) :
  contains_name
    (List.filter (fun opt => negb (py_in (Some (sv_name opt)) [Some v])) opts)
    (Some v) = false.
Proof.
  induction opts as [| opt opts IH]; simpl; [done |].
  destruct (decide (Some v = Some (sv_name opt))) as [Heq | Hne]; simpl.
  - apply IH.
  - rewrite decide_False by congruence. apply IH.
Qed.

Lemma MultiSelect_iadd_absent (x : MultiSelect) (v : string) :
  MultiSelect_contains x (Some v) = false ->
  exists x', MultiSelect_iadd (Some v) x = (Ok tt, x')
             /\ MultiSelect_contains x' (Some v) = true.
Proof.
  intros Hno. unfold MultiSelect_iadd. rewrite Hno. simpl. rewrite Hno. simpl.
  eexists. split; [reflexivity |].
  unfold MultiSelect_contains. simpl. rewrite contains_name_app. simpl.
  rewrite decide_True by done. apply orb_true_r.
Qed.

Lemma MultiSelect_iadd_present (x : MultiSelect) (v : string) :
  MultiSelect_contains x (Some v) = true ->
  MultiSelect_iadd (Some v) x
  = (Raise (ValueError (String.append "Duplicate item: " v)), x).
Proof. intros Hin. unfold MultiSelect_iadd. by rewrite Hin. Qed.

Lemma MultiSelect_isub_present (x : MultiSelect) (v : string) :
  MultiSelect_contains x (Some v) = true ->
  exists x', MultiSelect_isub (Some v) x = (Ok tt, x')
             /\ MultiSelect_contains x' (Some v) = false.
Proof.
  intros Hin. unfold MultiSelect_isub. rewrite Hin. simpl.
  eexists. split; [reflexivity |].
  unfold MultiSelect_contains. simpl. apply contains_name_filter.
Qed.

Lemma MultiSelect_isub_absent (x : MultiSelect) (v : string) :
  MultiSelect_contains x (Some v) = false ->
  MultiSelect_isub (Some v) x
  = (Raise (ValueError (String.append "No such item: " v)), x).
Proof. intros Hno. unfold MultiSelect_isub. by rewrite Hno. Qed.

Lemma contains_file_app refs1 refs2 other :
  contains_file (refs1 ++ refs2) other
  = contains_file refs1 other || contains_file refs2 other.
Proof.
  induction refs1 as [| r refs1 IH]; simpl; [done |].
  destruct (file_eq r other); [done |].
  destruct (file_name_eq r other); [done | apply IH].
Qed.

Lemma Files_iadd_absent (x : Files) refs (f : FileObject) :
  files x = Some refs ->
  Files_contains x (FObj f) = false ->
  exists x', Files_iadd f x = (Ok tt, x') /\ Files_contains x' (FObj f) = true.
Proof.
  intros Hrefs Hno. unfold Files_iadd, Files_append. rewrite Hno, Hrefs.
  eexists. split; [reflexivity |].
  unfold Files_contains. simpl. rewrite contains_file_app. simpl.
  rewrite bool_decide_eq_true_2 by done. apply orb_true_r.
Qed.

Lemma Files_iadd_present (x : Files) (f : FileObject) :
  Files_contains x (FObj f) = true ->
  Files_iadd f x = (Raise (ValueError "Item exists"), x).
Proof. intros Hin. unfold Files_iadd. by rewrite Hin. Qed.

Lemma Files_isub_absent (x : Files) (f : FileObject) :
  Files_contains x (FObj f) = false ->
  Files_isub f x = (Raise (ValueError "No such item"), x).
Proof. intros Hno. unfold Files_isub. by rewrite Hno. Qed.

Lemma contains_file_py_in refs (f : FileObject) :
  contains_file refs (FObj f) = py_in f refs.
Proof.
  induction refs as [| r refs IH]; simpl; [done |].
  destruct (decide (r = f)) as [-> | Hne].
  - by rewrite bool_decide_eq_true_2.
  - by rewrite bool_decide_eq_false_2.
Qed.

Lemma py_list_remove_NoDup {A} `{EqDecision A} (x : A) l l' :
  NoDup l -> py_list_remove x l = Some l' -> py_in x l' = false.
Proof.
  intros Hnd. revert l'. induction Hnd as [| y l Hy Hnd IH]; simpl; [done |].
  intros l'. destruct (decide (y = x)) as [-> | Hne].
  - intros [= <-]. clear IH. induction l as [| z l IHl]; simpl; [done |].
    destruct (decide (z = x)) as [-> | Hz].
    + exfalso. apply Hy. by left.
    + apply IHl.
      * intros Hin. apply Hy. by right.
      * by inversion Hnd.
  - destruct (py_list_remove x l) as [r |] eqn:Hr; [| done].
    intros [= <-]. simpl. rewrite decide_False by done. by apply IH.
Qed.

(** On a [Files] without repeated entries, [-=] of an entry removes it. *)
Lemma Files_isub_present (x : Files) refs (f : FileObject) :
  files x = Some refs -> NoDup refs ->
  Files_contains x (FObj f) = true ->
  exists x', Files_isub f x = (Ok tt, x') /\ Files_contains x' (FObj f) = false.
Proof.
  intros Hrefs Hnd Hin. unfold Files_isub, Files_remove. rewrite Hin, Hrefs. simpl.
  unfold Files_contains in Hin. rewrite Hrefs, contains_file_py_in in Hin.
  destruct (py_list_remove_present _ _ Hin) as [refs' Hrm]. rewrite Hrm.
  eexists. split; [reflexivity |].
  unfold Files_contains. simpl. rewrite contains_file_py_in.
  eapply py_list_remove_NoDup; eauto.
Qed.

(** [list.remove] drops one entry only: where [append] has stored a file
    twice, the file is still there after [-=]. *)
Lemma Files_isub_repeated_entry (f : FileObject) :
  exists x', Files_isub f (mkFiles (Some [f; f])) = (Ok tt, x')
             /\ Files_contains x' (FObj f) = true.
Proof.
  unfold Files_isub, Files_remove, Files_contains. simpl.
  rewrite !bool_decide_eq_true_2 by done. simpl.
  rewrite decide_True by done.
  eexists. split; [reflexivity |]. simpl. by rewrite bool_decide_eq_true_2.
Qed.

Lemma Relation_iadd_absent (x : Relation) (page : ref_arg) :
  Relation_contains x page = false ->
  exists x', Relation_iadd page x = (Ok tt, x') /\ Relation_contains x' page = true.
Proof.
  intros Hno. unfold Relation_iadd. unfold Relation_contains in Hno. rewrite Hno.
  eexists. split; [reflexivity |].
  unfold Relation_contains. simpl. apply py_in_self.
Qed.

Lemma Relation_iadd_present (x : Relation) (page : ref_arg) :
  Relation_contains x page = true ->
  Relation_iadd page x
  = (Raise (ValueError (String.append "Duplicate item: "
                          (ref_id (ObjectReference_compose page)))), x).
Proof.
  intros Hin. unfold Relation_iadd. unfold Relation_contains in Hin. by rewrite Hin.
Qed.

(** [Relation.__isub__] raises whether the page is in the relation or not,
    and never changes the relation. *)
Lemma Relation_isub_raises (x : Relation) (page : ref_arg) :
  Relation_isub page x
  = (Raise (ValueError
             (if Relation_contains x page
              then String.append "No such item: " (ref_id (ObjectReference_compose page))
              else "list.remove(x): x not in list")), x).
Proof.
  unfold Relation_isub, Relation_contains.
  destruct (py_in _ _) eqn:Hin; [done |].
  by rewrite (py_list_remove_absent _ _ Hin).
Qed.

(** C2.  [x -= v] on a [Relation] that holds [v]: the relation
    [[p1]] holds the page [p1], and removing [p1] raises "No such item"
    and leaves [p1] in the relation. *)
Theorem Relation_isub_present_raises :
  let x := mkRelation [mkRef "p1"] false in
  Relation_contains x (ById "p1") = true
  /\ Relation_isub (ById "p1") x = (Raise (ValueError "No such item: p1"), x)
  /\ Relation_contains (Relation_isub (ById "p1") x).2 (ById "p1") = true.
Proof. by vm_compute. Qed.

(** C10.  [x.append(v)] with [v] already selected returns and leaves [x] as
    it was, where [x += v] raises a duplicate error; [append(None)] raises
    on every [MultiSelect]. *)
Theorem MultiSelect_append_present_is_silent (x : MultiSelect) (v : string) :
  MultiSelect_contains x (Some v) = true ->
  MultiSelect_append [Some v] x = (Ok tt, x)
  /\ MultiSelect_iadd (Some v) x
     = (Raise (ValueError (String.append "Duplicate item: " v)), x)
  /\ (forall y : MultiSelect,
        MultiSelect_append [None] y
        = (Raise (ValueError "'None' is an invalid value"), y)).
Proof.
  intros Hin. split; [| split].
  - simpl. by rewrite Hin.
  - by apply MultiSelect_iadd_present.
  - reflexivity.
Qed.

Lemma MultiSelect_append_present_is_silent_witness :
  let x := MultiSelect_compose [Some "Backlog"; Some "Done"] in
  MultiSelect_contains x (Some "Done") = true
  /\ MultiSelect_append [Some "Done"] x = (Ok tt, x).
Proof.
  split; [reflexivity |].
  apply (MultiSelect_append_present_is_silent
           (MultiSelect_compose [Some "Backlog"; Some "Done"]) "Done").
  reflexivity.
Defined.

(** ** Text *)

Lemma append_empty_r (s : string) : String.append s "" = s.
Proof.
  induction s as [| c s IH]; [done |].
  change (String c (String.append s "") = String c s). by f_equal.
Qed.

Lemma join_cons (a : string) (l : list string) :
  join (a :: l) = String.append a (join l).
Proof.
  unfold join. destruct l as [| b l]; [| reflexivity].
  change (a = String.append a ""). by rewrite append_empty_r.
Qed.

Lemma plain_text_of_spans (parts : list string) :
  map plain_text_of (map TextObject parts) = parts.
Proof. induction parts as [| p parts IH]; simpl; [done | by rewrite IH]. Qed.

Lemma str_take_drop (n : nat) (s : string) :
  String.append (str_take n s) (str_drop n s) = s.
Proof.
  revert s. induction n as [| n IH]; intros [| c s]; try done.
  change (String c (String.append (str_take n s) (str_drop n s)) = String c s).
  by rewrite IH.
Qed.

(** The chunker of the instance loses nothing, whatever the size. *)
Lemma join_chunks (fuel size : nat) (s : string) : join (chunks fuel size s) = s.
Proof.
  revert s. induction fuel as [| fuel IH]; intros [| c s]; try done.
  change (chunks (S fuel) size (String c s))
    with (str_take (S size) (String c s)
            :: chunks fuel size (str_drop (S size) (String c s))).
  rewrite join_cons, IH. apply str_take_drop.
Qed.

Lemma join_chunky_by (size : nat) (s : string) : join (chunky_by size s) = s.
Proof. apply join_chunks. Qed.

Section TextProperties.
Context `{PyNum} `{Helpers}.

Lemma plain_rich_text (s : string) :
  (forall t, join (chunky t) = t) -> plain_text (rich_text [s]) = s.
Proof.
  intros Hchunky. unfold plain_text, rich_text. simpl.
  rewrite app_nil_r, plain_text_of_spans. apply Hchunky.
Qed.


(** ** [objects.RichText] *)

(** C9.  Equality and hash of a [RichText] are those of its rendered plain
    text [str(self)]: two values that render to the same text are equal and
    have the same hash, and a [RichText] equals a string exactly when it
    renders to that string. *)
Theorem RichText_eq_hash_by_plain_text (x y : RichText) :
  RichText_str x = RichText_str y ->
  RichText_eq x (RRich y) = Some true
  /\ RichText_hash x = RichText_hash y
  /\ (forall z, RichText_eq x (RRich z) = Some (bool_decide (RichText_str x = RichText_str z)))
  /\ (forall s, RichText_eq x (RStr s) = Some true <-> RichText_str x = s)
  /\ (forall s, RichText_eq x (RStr s) = RichText_eq y (RStr s)).
Proof.
  intros Hstr. repeat apply conj.
  - simpl. by rewrite bool_decide_eq_true_2.
  - unfold RichText_hash. by rewrite Hstr.
  - reflexivity.
  - intros s. simpl. split.
    + intros [= Hb]. by apply bool_decide_eq_true in Hb.
    + intros Hs. by rewrite bool_decide_eq_true_2.
  - intros s. simpl. by rewrite Hstr.
Qed.

End TextProperties.


Lemma RichText_eq_hash_by_plain_text_witness :
  let x := [mkRichTextBase (Some (TextObject "ab"))] in
  let y := [mkRichTextBase (Some (TextObject "a"));
            mkRichTextBase None;
            mkRichTextBase (Some (mkSpan KEquation "b" None true))] in
  RichText_str x = RichText_str y
  /\ x <> y
  /\ RichText_eq x (RRich y) = Some true
  /\ @RichText_hash demo_helpers x = @RichText_hash demo_helpers y.
Proof.
  split; [reflexivity |]. split; [discriminate |].
  pose proof (@RichText_eq_hash_by_plain_text demo_helpers
                [mkRichTextBase (Some (TextObject "ab"))]
                [mkRichTextBase (Some (TextObject "a"));
                 mkRichTextBase None;
                 mkRichTextBase (Some (mkSpan KEquation "b" None true))]
                eq_refl) as (Heq & Hhash & _).
  split; [exact Heq | exact Hhash].
Defined.

Lemma Number_None_arithmetic_fails_witness :
  let x := @mkNumber py_rational None in
  number x = None
  /\ @Number_float py_rational x = Raise (ValueError "Cannot convert 'None' to float")
  /\ raises (@py_binop py_rational OpAdd (ONumber x) (@ONative py_rational (Some (1 # 2)%Q))).
Proof.
  split; [reflexivity |].
  pose proof (@Number_None_arithmetic_fails py_rational
                (@mkNumber py_rational None) eq_refl) as (Hop & Hfloat & _).
  split; [exact Hfloat |].
  exact (proj1 (Hop OpAdd (@ONative py_rational (Some (1 # 2)%Q)))).
Defined.

(** ** Endpoints and databases *)

Lemma dom_to_dict_fold (l : list Column) (d : gmap string PropertyType) :
  dom (fold_left (fun d col => <[ col_name col := col_type col ]> d) l d)
  = dom d ∪ list_to_set (col_name <$> l).
Proof.
  revert d. induction l as [| c l IH]; intros d; simpl.
  - set_solver.
  - rewrite IH, dom_insert_L. set_solver.
Qed.

Lemma dom_to_dict (schema : PageSchema) (k : string) :
  k ∈ dom (to_dict schema) <-> k ∈ col_name <$> get_cols schema.
Proof.
  unfold to_dict. rewrite dom_to_dict_fold, dom_empty_L. set_solver.
Qed.

Lemma to_dict_fold_keys (l1 l2 : list Column) (d : gmap string PropertyType) :
  (fun c => (col_name c, col_type c)) <$> l1
  = (fun c => (col_name c, col_type c)) <$> l2 ->
  fold_left (fun d col => <[ col_name col := col_type col ]> d) l1 d
  = fold_left (fun d col => <[ col_name col := col_type col ]> d) l2 d.
Proof.
  revert l2 d. induction l1 as [| c1 l1 IH]; intros [| c2 l2] d; simpl; try done.
  intros [= Hn Ht Hrest]. rewrite Hn, Ht. by apply IH.
Qed.

(** Two schemas whose columns agree on server-side names and types, in
    order, have the same dictionary: attribute names play no part. *)
Lemma to_dict_ignores_attr_names (s1 s2 : PageSchema) :
  (fun c => (col_name c, col_type c)) <$> get_cols s1
  = (fun c => (col_name c, col_type c)) <$> get_cols s2 ->
  to_dict s1 = to_dict s2.
Proof. apply to_dict_fold_keys. Qed.

Section ApiProperties.
Context `{Helpers} `{RawClient}.

(** C8.  When the response of [blocks.children.append] has no [results], or
    [results] of another length than the blocks handed over, [append] logs a
    warning, leaves every block as it was, returns the parent and raises
    nothing. *)
Theorem append_mismatch_is_soft
    (parent : ref_arg) (blocks : list (option Block)) (ses : session)
    (data : append_data raw_block) :
  raw_children_append (ref_id (ObjectReference_compose parent)) (omap id blocks)
  = Ok data ->
  match results data with
  | Some res => length blocks <> length res
  | None => True
  end ->
  exists msg,
    ChildrenEndpoint_append parent (blocks, ses)
    = (Ok parent,
       (blocks,
        mkSession
          (calls ses ++ [BlocksChildrenAppend
                           (ref_id (ObjectReference_compose parent))
                           (omap id blocks)])
          ((log ses ++ [(INFO, "Appending blocks")]) ++ [(WARNING, msg)]))).
Proof.
  intros Hraw Hres. unfold ChildrenEndpoint_append. simpl. rewrite Hraw.
  destruct (results data) as [res |].
  - rewrite decide_False by done. eexists. reflexivity.
  - eexists. reflexivity.
Qed.

Lemma schema_get_cached (db : Database) (s : PageSchema) :
  _schema db = Some s -> schema_get db = (s, db).
Proof. intros Hs. unfold schema_get. by rewrite Hs. Qed.

Lemma schema_get_idem (db : Database) :
  schema_get (schema_get db).2 = schema_get db.
Proof. destruct db as [o [s |]]; reflexivity. Qed.

Lemma schema_get_caches (db : Database) :
  _schema (schema_get db).2 = Some (schema_get db).1
  /\ db_obj_ref (schema_get db).2 = db_obj_ref db.
Proof. destruct db as [o [s |]]; split; reflexivity. Qed.

(** C4.  Let [current] be the schema of a database (the cached one, or the
    reflected one when nothing is cached).  Assigning a schema that lacks a
    column [B] of [current] raises [SchemaError] with [B] among the removed
    columns, and the database keeps [current]; assigning a schema with the
    same mapping from column names to types binds it to the database and
    makes it the cached schema. *)
Theorem schema_setter_checks_consistency (db : Database) (user : PageSchema) :
  let current := (schema_get db).1 in
  let db' := (schema_get db).2 in
  (forall s, _schema db = Some s -> db' = db /\ current = s)
  /\ _schema db' = Some current
  /\ (forall B,
        B ∈ col_name <$> get_cols current ->
        B ∉ col_name <$> get_cols user ->
        exists cols_added cols_removed cols_changed,
          schema_set user db
          = (Raise (SchemaError (Inconsistent cols_added cols_removed cols_changed)), db')
          /\ B ∈ cols_removed)
  /\ (to_dict user = to_dict current ->
      schema_set user db
      = (Ok tt,
         mkDatabase (db_obj_ref db)
                    (Some (bind_db (obj_id (db_obj_ref db)) user)))).
Proof.
  intros current db'. split; [| split; [| split]].
  - intros s Hs. subst current db'. by rewrite (schema_get_cached _ _ Hs).
  - apply schema_get_caches.
  - intros B Hin Hout.
    apply dom_to_dict in Hin. rewrite <- dom_to_dict in Hout.
    unfold schema_set.
    pose proof (schema_get_idem db) as Hidem.
    destruct (schema_get db) as [cur d1] eqn:Hget. simpl in *. subst current db'.
    unfold is_consistent_with. rewrite bool_decide_eq_false_2.
    + rewrite Hidem. unfold dict_diff_str.
      do 3 eexists. split; [reflexivity |]. set_solver.
    + intros Heq. rewrite Heq in Hin. done.
  - intros Heq. unfold schema_set.
    pose proof (schema_get_caches db) as [_ Hobj].
    destruct (schema_get db) as [cur d1] eqn:Hget. simpl in *. subst current db'.
    unfold is_consistent_with. rewrite bool_decide_eq_true_2 by done.
    by rewrite Hobj.
Qed.

Lemma dom_schema_kwargs_fold (l : list Column) (d : gmap string Column) :
  dom (fold_left (fun d col => <[ attr_name col := col ]> d) l d)
  = dom d ∪ list_to_set (attr_name <$> l).
Proof.
  revert d. induction l as [| c l IH]; intros d; simpl.
  - set_solver.
  - rewrite IH, dom_insert_L. set_solver.
Qed.

(** The keys of [schema_kwargs] are the schema's attribute names. *)
Lemma dom_schema_kwargs (schema : PageSchema) :
  dom (schema_kwargs_of schema) = list_to_set (attr_name <$> get_cols schema).
Proof.
  unfold schema_kwargs_of. rewrite dom_schema_kwargs_fold, dom_empty_L. set_solver.
Qed.

Lemma fill_schema_dct_readonly schema_kwargs kwargs schema_dct :
  (exists k v col, (k, v) ∈ kwargs /\ schema_kwargs !! k = Some col
                   /\ readonly (col_type col) = true) ->
  raises (fill_schema_dct schema_kwargs kwargs schema_dct).
Proof.
  revert schema_dct.
  induction kwargs as [| [k v] rest IH]; intros dct (k0 & v0 & col & Hin & Hlk & Hro).
  - by apply elem_of_nil in Hin.
  - simpl. destruct (schema_kwargs !! k) as [c |] eqn:Hk; [| raise_now].
    destruct (readonly (col_type c)) eqn:Hc; [raise_now |].
    apply elem_of_cons in Hin as [[= -> ->] | Hin]; [congruence |].
    destruct (match v with
              | KProp p => Ok p
              | KNative n => prop_value_cls (col_type c) n
              end) as [pv | e]; cbn; [| raise_now].
    apply IH. eauto 6.
Qed.

Lemma fill_schema_dct_readonly_exact schema_kwargs kwargs schema_dct :
  (exists k v col, (k, v) ∈ kwargs /\ schema_kwargs !! k = Some col
                   /\ readonly (col_type col) = true) ->
  (forall k v col, (k, KNative v) ∈ kwargs -> schema_kwargs !! k = Some col ->
                   readonly (col_type col) = false ->
                   is_ok (prop_value_cls (col_type col) v) = true) ->
  (forall k, k ∈ kwargs.*1 -> is_Some (schema_kwargs !! k)) ->
  exists k col,
    k ∈ kwargs.*1 /\ schema_kwargs !! k = Some col
    /\ readonly (col_type col) = true
    /\ fill_schema_dct schema_kwargs kwargs schema_dct
       = Raise (ReadOnlyColumnError col).
Proof.
  revert schema_dct.
  induction kwargs as [| [k v] rest IH];
    intros dct (k0 & v0 & col & Hin & Hlk & Hro) Hvalid Hknown.
  - by apply elem_of_nil in Hin.
  - simpl. destruct (Hknown k) as [c Hk]; [set_solver |]. rewrite Hk.
    destruct (readonly (col_type c)) eqn:Hc.
    { exists k, c. repeat split; [set_solver | done..]. }
    apply elem_of_cons in Hin as [[= -> ->] | Hin]; [congruence |].
    assert (Hpv : exists pv,
               match v with
               | KProp p => Ok p
               | KNative n => prop_value_cls (col_type c) n
               end = Ok pv).
    { destruct v as [p | n]; [eauto |].
      specialize (Hvalid k n c). 
      destruct (prop_value_cls (col_type c) n) as [pv | e]; [eauto |].
      exfalso. assert (false = true) by (apply Hvalid; [set_solver | done..]).
      done. }
    destruct Hpv as [pv ->]. cbn.
    destruct (IH (<[ col_name c := Some pv ]> dct)) as (k1 & c1 & Hk1 & Hc1 & Hro1 & Hfill).
    + eauto 6.
    + intros k' v' col' Hin'. apply Hvalid. set_solver.
    + intros k' Hin'. apply Hknown. set_solver.
    + exists k1, c1. repeat split; [set_solver | done..].
Qed.

(** C1.  [create_page] with a keyword that is no attribute of the schema
    raises [SchemaError].  With a keyword mapped to a read-only column it
    raises, whatever else it is given; the exception is
    [ReadOnlyColumnError] when no other validation fails first, that is when
    every keyword is an attribute and the values of the writable keywords
    are accepted by their property classes.  In each of these cases the
    session is untouched: nothing was sent to [pages.create], nothing was
    logged. *)
Theorem create_page_validates_before_transport
    (db : Database) (ses : session) (kwargs : list (string * kwvalue)) :
  let schema := (schema_get db).1 in
  let db' := (schema_get db).2 in
  let attrs := attr_name <$> get_cols schema in
  let schema_kwargs := schema_kwargs_of schema in
  ((exists k, k ∈ kwargs.*1 /\ k ∉ attrs) ->
     create_page kwargs (db, ses)
     = (Raise (SchemaError
                 (UndefinedKwargs (list_to_set (kwargs.*1) ∖ list_to_set attrs))),
        (db', ses)))
  /\ ((exists k v col, (k, v) ∈ kwargs /\ schema_kwargs !! k = Some col
                       /\ readonly (col_type col) = true) ->
      (exists e, create_page kwargs (db, ses) = (Raise e, (db', ses)))
      /\ ((forall k, k ∈ kwargs.*1 -> k ∈ attrs) ->
          (forall k v col,
             (k, KNative v) ∈ kwargs -> schema_kwargs !! k = Some col ->
             readonly (col_type col) = false ->
             is_ok (prop_value_cls (col_type col) v) = true) ->
          exists k col,
            k ∈ kwargs.*1 /\ schema_kwargs !! k = Some col
            /\ readonly (col_type col) = true
            /\ create_page kwargs (db, ses)
               = (Raise (ReadOnlyColumnError col), (db', ses)))).
Proof.
  intros schema db' attrs schema_kwargs.
  unfold create_page.
  destruct (schema_get db) as [sch d1] eqn:Hget.
  simpl in schema, db'. subst schema db'.
  fold schema_kwargs.
  assert (Hdom : dom schema_kwargs = list_to_set attrs) by apply dom_schema_kwargs.
  split.
  - intros (k & Hk & Hnot).
    rewrite bool_decide_eq_false_2; [simpl; by rewrite Hdom |].
    rewrite Hdom. intros Hsub. apply Hnot.
    apply (elem_of_list_to_set (C := gset string)), Hsub.
    by apply elem_of_list_to_set.
  - intros Hro. split.
    + destruct (bool_decide _); simpl; [| eauto].
      destruct (fill_schema_dct_readonly schema_kwargs kwargs ∅ Hro) as [e ->].
      eauto.
    + intros Hknown Hvalid.
      assert (Hsub : (list_to_set (kwargs.*1) : gset string) ⊆ dom schema_kwargs).
      { rewrite Hdom. intros k Hk. apply elem_of_list_to_set.
        apply Hknown. by apply elem_of_list_to_set in Hk. }
      rewrite bool_decide_eq_true_2 by done. simpl.
      destruct (fill_schema_dct_readonly_exact schema_kwargs kwargs ∅ Hro Hvalid)
        as (k & col & Hk & Hcol & Hcro & ->).
      * intros k Hk. apply elem_of_dom. rewrite Hdom.
        apply elem_of_list_to_set. by apply Hknown.
      * exists k, col. done.
Qed.

(** C5.  On the database of the articles fixture, whose columns are [Name]
    (title), [Cost] (number) and [Description] (rich text),
    [create_page(name="Widget", cost=c)] sends one request to [pages.create];
    its properties are the two values under the server-side names [Name] and
    [Cost], and [Description] is not among its keys. *)
Theorem create_page_article_payload
    (ses : session) (cost : num) (name_prop cost_prop : PropertyValue) :
  prop_value_cls TTitle (NStr "Widget") = Ok name_prop ->
  prop_value_cls TNumber (NNum cost) = Ok cost_prop ->
  exists out request,
    create_page [("name", KNative (NStr "Widget")); ("cost", KNative (NNum cost))]
                (article_db, ses)
    = (out,
       (article_db,
        mkSession (calls ses ++ [PagesCreate request])
                  (log ses ++ [(INFO, "Creating page")])))
    /\ req_parent request = DatabaseRef "db-articles"
    /\ req_children request = None
    /\ req_properties request
       = <[ "Cost" := Some cost_prop ]> (<[ "Name" := Some name_prop ]> ∅)
    /\ dom (req_properties request) = {[ "Name"; "Cost" ]}
    /\ req_properties request !! "Description" = None.
Proof.
  intros Hname Hcost.
  assert (Hkw_name : schema_kwargs_of (bind_db "db-articles" Article) !! "name"
                     = Some (mkColumn "Name" TTitle "name")) by by vm_compute.
  assert (Hkw_cost : schema_kwargs_of (bind_db "db-articles" Article) !! "cost"
                     = Some (mkColumn "Cost" TNumber "cost")) by by vm_compute.
  assert (Hsub : bool_decide
                   ((list_to_set ["name"; "cost"] : gset string)
                      ⊆ dom (schema_kwargs_of (bind_db "db-articles" Article)))
                 = true) by by vm_compute.
  set (props := <[ "Cost" := Some cost_prop ]> (<[ "Name" := Some name_prop ]> ∅)
       : gmap string (option PropertyValue)).
  set (request := mkPageRequest (DatabaseRef "db-articles") props None
       : page_request Block).
  assert (Hfill : fill_schema_dct (schema_kwargs_of (bind_db "db-articles" Article))
                    [("name", KNative (NStr "Widget")); ("cost", KNative (NNum cost))] ∅
                  = Ok props).
  { cbn [fill_schema_dct]. rewrite Hkw_name. cbn [col_type readonly col_name].
    rewrite Hname. cbn [rbind]. rewrite Hkw_cost. cbn [col_type readonly col_name].
    rewrite Hcost. reflexivity. }
  assert (Hdom : dom props = {[ "Name"; "Cost" ]}).
  { unfold props. rewrite !dom_insert_L, dom_empty_L. set_solver. }
  assert (Hdesc : props !! "Description" = None).
  { unfold props. by rewrite !lookup_insert_ne, lookup_empty. }
  unfold create_page. cbn [schema_get article_db _schema fst snd].
  cbn [map fst] in *. 
  change ((("name", KNative (NStr "Widget")) :: ("cost", KNative (NNum cost)) :: []).*1)
    with ["name"; "cost"].
  rewrite Hsub. cbn [negb]. rewrite Hfill.
  unfold PagesEndpoint_create, mseq, logger, record_call, lift.
  cbn [db_obj_ref article_db obj_id article_obj default calls log
       PagesEndpoint_parent].
  change (id props) with props. fold request.
  destruct (raw_pages_create request) as [data | e].
  - destruct (Page_parse_obj data) as [obj | e];
      do 2 eexists; (split; [reflexivity | by repeat split]).
  - do 2 eexists. split; [reflexivity | by repeat split].
Qed.

End ApiProperties.

(** ** The properties on the instances *)

Lemma append_mismatch_is_soft_witness :
  let blocks : list (option (@Block _ demo_client)) := [Some "b1"; None; Some "b2"] in
  (@raw_children_append _ demo_client "short" (omap id blocks)
   = Ok (mkAppendData (Some ["b2"])))
  /\ length blocks <> length ["b2"]
  /\ exists msg,
      @ChildrenEndpoint_append py_rational demo_client (ById "short")
        (blocks, empty_session)
      = (Ok (ById "short"),
         (blocks,
          mkSession [BlocksChildrenAppend "short" ["b1"; "b2"]]
                    [(INFO, "Appending blocks"); (WARNING, msg)])).
Proof.
  split; [reflexivity |]. split; [discriminate |].
  apply (@append_mismatch_is_soft py_rational demo_client (ById "short")
           [Some "b1"; None; Some "b2"] empty_session
           (mkAppendData (Some ["b2"]))).
  - reflexivity.
  - discriminate.
Defined.

Lemma schema_setter_checks_consistency_witness :
  ("B" ∈ col_name <$> get_cols (@schema_get demo_helpers ab_db).1)
  /\ ("B" ∉ col_name <$> get_cols only_A)
  /\ (exists cols_added cols_removed cols_changed,
        @schema_set demo_helpers only_A ab_db
        = (Raise (SchemaError (Inconsistent cols_added cols_removed cols_changed)),
           (@schema_get demo_helpers ab_db).2)
        /\ "B" ∈ cols_removed)
  /\ to_dict renamed_AB = to_dict (@schema_get demo_helpers ab_db).1
  /\ @schema_set demo_helpers renamed_AB ab_db
     = (Ok tt, mkDatabase (db_obj_ref ab_db) (Some (bind_db "db-ab" renamed_AB))).
Proof.
  assert (Hin : "B" ∈ col_name <$> get_cols (@schema_get demo_helpers ab_db).1).
  { apply list_elem_of_In. vm_compute. auto. }
  assert (Hout : "B" ∉ col_name <$> get_cols only_A).
  { rewrite list_elem_of_In. vm_compute. intros [? | []]. discriminate. }
  assert (Hsame : to_dict renamed_AB = to_dict (@schema_get demo_helpers ab_db).1).
  { apply (to_dict_ignores_attr_names renamed_AB). reflexivity. }
  pose proof (@schema_setter_checks_consistency demo_helpers ab_db only_A)
    as (_ & _ & Hremoved & _).
  pose proof (@schema_setter_checks_consistency demo_helpers ab_db renamed_AB)
    as (_ & _ & _ & Hbound).
  split; [exact Hin |]. split; [exact Hout |].
  split; [exact (Hremoved "B" Hin Hout) |].
  split; [exact Hsame | exact (Hbound Hsame)].
Defined.

Lemma create_page_validates_before_transport_witness :
  let unknown : list (string * @kwvalue py_rational) := [("bogus", KNative NNone)] in
  let derived : list (string * @kwvalue py_rational) :=
    [("task", KNative (NStr "Write")); ("done", KNative (NBool true))] in
  (exists k, k ∈ unknown.*1 /\ k ∉ ["task"; "done"; "url"])
  /\ @create_page demo_helpers py_rational demo_client unknown (task_db, empty_session)
     = (Raise (SchemaError
                 (UndefinedKwargs (list_to_set ["bogus"]
                                     ∖ list_to_set ["task"; "done"; "url"]))),
        (task_db, empty_session))
  /\ (forall k, k ∈ derived.*1 -> k ∈ ["task"; "done"; "url"])
  /\ exists k col,
      k ∈ derived.*1
      /\ col = mkColumn "Done" TFormula "done"
      /\ @create_page demo_helpers py_rational demo_client derived (task_db, empty_session)
         = (Raise (ReadOnlyColumnError col), (task_db, empty_session)).
Proof.
  intros unknown derived.
  assert (Hunknown : exists k, k ∈ unknown.*1 /\ k ∉ ["task"; "done"; "url"]).
  { exists "bogus". split; [set_solver |].
    rewrite list_elem_of_In. vm_compute. intros [? | [? | [? | []]]]; discriminate. }
  assert (Hknown : forall k, k ∈ derived.*1 -> k ∈ ["task"; "done"; "url"]).
  { intros k Hk. subst derived. set_solver. }
  pose proof (@create_page_validates_before_transport
                demo_helpers py_rational demo_client task_db empty_session unknown)
    as [Hschema _].
  pose proof (@create_page_validates_before_transport
                demo_helpers py_rational demo_client task_db empty_session derived)
    as [_ Hreadonly].
  split; [exact Hunknown |]. split; [exact (Hschema Hunknown) |].
  split; [exact Hknown |].
  destruct Hreadonly as [_ Hexact].
  { exists "done", (KNative (NBool true)), (mkColumn "Done" TFormula "done").
    split; [subst derived; set_solver |]. split; by vm_compute. }
  destruct (Hexact Hknown) as (k & col & Hk & Hcol & Hro & Hrun).
  { intros k v col Hin Hcol Hrw. subst derived.
    apply elem_of_cons in Hin as [[= -> ->] | Hin].
    - assert (col = mkColumn "Task" TTitle "task") as ->; [| reflexivity].
      vm_compute in Hcol. congruence.
    - apply elem_of_cons in Hin as [[= -> ->] | Hin]; [| by apply elem_of_nil in Hin].
      assert (col = mkColumn "Done" TFormula "done") as ->; [| discriminate].
      vm_compute in Hcol. congruence. }
  exists k, col. split; [exact Hk |]. split; [| exact Hrun].
  subst derived.
  apply elem_of_cons in Hk as [-> | Hk].
  - vm_compute in Hcol. injection Hcol as <-. discriminate.
  - apply elem_of_cons in Hk as [-> | Hk]; [| by apply elem_of_nil in Hk].
    vm_compute in Hcol. congruence.
Defined.

Lemma create_page_article_payload_witness :
  let name_prop := PVTitle (@Title_compose demo_helpers ["Widget"]) in
  let cost_prop := PVNumber (@mkNumber py_rational (Some (999 # 100)%Q)) in
  @prop_value_cls _ demo_client TTitle (NStr "Widget") = Ok name_prop
  /\ @prop_value_cls _ demo_client TNumber (@NNum py_rational (999 # 100)%Q) = Ok cost_prop
  /\ exists out request,
      @create_page demo_helpers py_rational demo_client
        [("name", KNative (NStr "Widget"));
         ("cost", KNative (@NNum py_rational (999 # 100)%Q))]
        (article_db, empty_session)
      = (out, (article_db,
               mkSession [PagesCreate request] [(INFO, "Creating page")]))
      /\ dom (req_properties request) = {[ "Name"; "Cost" ]}
      /\ req_properties request !! "Description" = None.
Proof.
  split; [reflexivity |]. split; [reflexivity |].
  destruct (@create_page_article_payload demo_helpers py_rational demo_client
              empty_session (999 # 100)%Q
              (PVTitle (@Title_compose demo_helpers ["Widget"]))
              (PVNumber (@mkNumber py_rational (Some (999 # 100)%Q)))
              eq_refl eq_refl)
    as (out & request & Hrun & _ & _ & _ & Hdom & Hdesc).
  exists out, request. split; [exact Hrun |]. split; [exact Hdom | exact Hdesc].
Defined.

(** ** Runs of the model *)

Example chunky_by_run : chunky_by 2 "abcdefg" = ["abc"; "def"; "g"].
Proof. reflexivity. Qed.

Example reflect_run :
  get_cols (@_reflect_schema demo_helpers ab_db)
  = [mkColumn "A" TTitle "a"; mkColumn "B" TNumber "b"].
Proof. reflexivity. Qed.

(** Two column names with one derived attribute name: the dictionary
    comprehension of [_reflect_schema] keeps the later column only. *)
Example reflect_attr_collision_run :
  get_cols (@_reflect_schema demo_helpers
              (mkDatabase
                 (mkDatabaseObj "db" None [("Name", TTitle); ("name", TRichText)])
                 None))
  = [mkColumn "name" TRichText "name"].
Proof. reflexivity. Qed.

Example Number_add_run :
  @py_binop py_rational OpAdd
    (ONumber (@mkNumber py_rational (Some (1 # 2)%Q)))
    (@ONative py_rational (Some (1 # 4)%Q))
  = Ok (ONumber (@mkNumber py_rational (Some (6 # 8)%Q))).
Proof. reflexivity. Qed.

Example Number_truediv_run :
  @py_binop py_rational OpTrueDiv
    (ONumber (@mkNumber py_rational (Some (1 # 2)%Q)))
    (@ONative py_rational (Some (1 # 4)%Q))
  = Raise (TypeError "unsupported operand type(s)").
Proof. reflexivity. Qed.

Example Status_compose_None_run :
  Status_compose None (Some Red) = Raise (ValueError "'name' cannot be None").
Proof. reflexivity. Qed.

Example MultiSelect_iadd_isub_run :
  let x := MultiSelect_compose [Some "Backlog"] in
  MultiSelect_iadd (Some "Done") x
  = (Ok tt, MultiSelect_compose [Some "Backlog"; Some "Done"])
  /\ MultiSelect_isub (Some "Backlog") x = (Ok tt, MultiSelect_compose [])
  /\ MultiSelect_append [Some "Done"; None] x
     = (Raise (ValueError "'None' is an invalid value"),
        MultiSelect_compose [Some "Backlog"; Some "Done"]).
Proof. repeat split. Qed.

Example Relation_isub_absent_run :
  Relation_isub (ById "p2") (mkRelation [mkRef "p1"] false)
  = (Raise (ValueError "list.remove(x): x not in list"),
     mkRelation [mkRef "p1"] false).
Proof. reflexivity. Qed.

Example append_refresh_run :
  @ChildrenEndpoint_append py_rational demo_client (ById "page")
    ([Some "old1"; Some "old2"], empty_session)
  = (Ok (ById "page"),
     ([Some "old1"; Some "old2"],
      mkSession [BlocksChildrenAppend "page" ["old1"; "old2"]]
                [(INFO, "Appending blocks")])).
Proof. reflexivity. Qed.

Example RichText_empty_run :
  to_plain_text [] = None /\ RichText_str [] = ""
  /\ RichText_eq [] (RStr "") = Some true
  /\ RichText_eq [] (RRich [mkRichTextBase (Some (TextObject ""))]) = Some true.
Proof. repeat split. Qed.

(* ================================================================== *)
(** * Part II, continued. Further properties of the code               *)
(* ================================================================== *)

(** ** Indexing *)

(** X1.  [x[index]] on a [MultiSelect], [People] or [Relation]: an index
    within the list gives the item at that place, a negative index counts
    from the end, and every other index raises [IndexError] -- an index past
    the length by the test of the method, the length itself and an index
    below [-len] by the list. *)
Theorem getitem_bounds {A} (l : list A) (index : Z) :
  let n := Z.of_nat (length l) in
  ((0 <= index < n)%Z ->
     exists a, l !! Z.to_nat index = Some a
               /\ field_getitem (Some l) index = Item a)
  /\ ((- n <= index < 0)%Z ->
     exists a, l !! Z.to_nat (index + n) = Some a
               /\ field_getitem (Some l) index = Item a)
  /\ ((index > n)%Z ->
     field_getitem (Some l) index = IndexError "index out of range")
  /\ ((index = n \/ index < - n)%Z ->
     field_getitem (Some l) index = IndexError "list index out of range")
  /\ field_getitem (None : option (list A)) index = IndexError "empty property".
Proof.
  intros n. unfold field_getitem, py_list_getitem. fold n.
  split; [| split; [| split; [| split]]].
  - intros Hin.
    rewrite decide_False by lia. rewrite (decide_False (P := (index < 0)%Z)) by lia.
    rewrite decide_True by lia.
    destruct (lookup_lt_is_Some_2 l (Z.to_nat index)) as [a Ha]; [lia |].
    exists a. by rewrite Ha.
  - intros Hin.
    rewrite decide_False by lia. rewrite (decide_True (P := (index < 0)%Z)) by lia.
    rewrite decide_True by lia.
    destruct (lookup_lt_is_Some_2 l (Z.to_nat (index + n))) as [a Ha]; [lia |].
    exists a. by rewrite Ha.
  - intros Hin. by rewrite decide_True by lia.
  - intros Hin. rewrite decide_False by lia.
    destruct (decide (index < 0)%Z); by rewrite decide_False by lia.
  - reflexivity.
Qed.

Lemma getitem_bounds_witness :
  MultiSelect_getitem (MultiSelect_compose [Some "a"; Some "b"]) 1
  = Item (SelectValue_compose "b" None)
  /\ MultiSelect_getitem (MultiSelect_compose [Some "a"; Some "b"]) (-1)
     = Item (SelectValue_compose "b" None)
  /\ MultiSelect_getitem (MultiSelect_compose [Some "a"; Some "b"]) 2
     = IndexError "list index out of range".
Proof.
  pose proof (getitem_bounds
                [SelectValue_compose "a" None; SelectValue_compose "b" None] 2)
    as (_ & _ & _ & Hlen & _).
  split; [reflexivity |]. split; [reflexivity |].
  apply Hlen. left. reflexivity.
Defined.

(** ** [MultiSelect] *)

Lemma contains_name_Values (opts : list SelectValue) (name : string) :
  contains_name opts (Some name) = true <-> name ∈ map SelectValue_str opts.
Proof.
  induction opts as [| opt opts IH]; simpl.
  - split; [done | by intros ?%elem_of_nil].
  - destruct (decide (Some (sv_name opt) = Some name)) as [[= Heq] | Hne].
    + split; [| done]. intros _. rewrite <- Heq. by left.
    + rewrite IH. split; [by right |].
      intros [Heq | Hin]%elem_of_cons; [| done].
      exfalso. apply Hne. unfold SelectValue_str in Heq. by rewrite Heq.
Qed.

(** X2.  [MultiSelect[*values]] holds one option per value that is not
    [None], in the order given and without merging repeated values; [Values]
    reads the names back, and [name in x] holds exactly of the names in
    [Values]. *)
Theorem MultiSelect_compose_Values (values : list (option string)) :
  MultiSelect_Values (MultiSelect_compose values) = omap id values
  /\ MultiSelect_len (MultiSelect_compose values) = length (omap id values)
  /\ (forall name,
        MultiSelect_contains (MultiSelect_compose values) (Some name) = true
        <-> Some name ∈ values)
  /\ (forall (x : MultiSelect) name,
        MultiSelect_contains x (Some name) = true <-> name ∈ MultiSelect_Values x).
Proof.
  assert (Hvalues : MultiSelect_Values (MultiSelect_compose values) = omap id values).
  { unfold MultiSelect_Values, MultiSelect_compose. simpl.
    rewrite map_map. apply map_id. }
  split; [exact Hvalues |]. split; [| split].
  - unfold MultiSelect_len, MultiSelect_compose. simpl. by rewrite length_map.
  - intros name. unfold MultiSelect_contains.
    rewrite contains_name_Values.
    change (map SelectValue_str (multi_select (MultiSelect_compose values)))
      with (MultiSelect_Values (MultiSelect_compose values)).
    rewrite Hvalues, list_elem_of_omap. split.
    + intros (v & Hv & Hid). simpl in Hid. by subst v.
    + intros Hin. by exists (Some name).
  - intros x name. apply contains_name_Values.
Qed.

Lemma NoDup_snoc_name (opts : list SelectValue) (v : string) :
  NoDup (map SelectValue_str opts) ->
  contains_name opts (Some v) = false ->
  NoDup (map SelectValue_str (opts ++ [SelectValue_compose v None])).
Proof.
  intros Hnd Hno. rewrite map_app. apply NoDup_app. split; [done |]. split.
  - intros n Hn [-> | []%elem_of_nil]%elem_of_cons.
    apply contains_name_Values in Hn. simpl in Hn. congruence.
  - simpl. apply NoDup_singleton.
Qed.

(** X3.  [MultiSelect.append] only adds at the end: the options that were
    there stay where they were, also when the call raises midway.  It
    returns exactly when no value is [None]; the values it went through are
    selected afterwards; and it never creates a second option of one name:
    names that were pairwise distinct stay so. *)
Theorem MultiSelect_append_invariant (values : list (option string)) (x : MultiSelect) :
  let out := (MultiSelect_append values x).1 in
  let x' := (MultiSelect_append values x).2 in
  (exists added, multi_select x' = multi_select x ++ added)
  /\ (out = Ok tt <-> None ∉ values)
  /\ (out = Ok tt ->
      forall v, Some v ∈ values -> MultiSelect_contains x' (Some v) = true)
  /\ (NoDup (MultiSelect_Values x) -> NoDup (MultiSelect_Values x')).
Proof.
  revert x. induction values as [| [v |] values IH]; intros x; simpl.
  - split; [exists []; by rewrite app_nil_r |]. split; [| split]; try done.
    + split; [intros _ ?%elem_of_nil; done | done].
    + intros _ v ?%elem_of_nil. done.
  - set (x1 := if negb (MultiSelect_contains x (Some v))
               then mkMultiSelect (multi_select x ++ [SelectValue_compose v None])
               else x).
    destruct (IH x1) as ((added & Hadd) & Hok & Hsel & Hnd).
    assert (Hx1 : exists a1, multi_select x1 = multi_select x ++ a1).
    { subst x1. destruct (MultiSelect_contains x (Some v)); simpl;
        [exists []; by rewrite app_nil_r | eauto]. }
    assert (Hv1 : MultiSelect_contains x1 (Some v) = true).
    { subst x1. destruct (MultiSelect_contains x (Some v)) eqn:Hc; simpl; [done |].
      unfold MultiSelect_contains. simpl. rewrite contains_name_app. simpl.
      rewrite decide_True by done. apply orb_true_r. }
    split; [| split; [| split]].
    + destruct Hx1 as [a1 Ha1]. exists (a1 ++ added).
      by rewrite Hadd, Ha1, <- app_assoc.
    + rewrite Hok. split.
      * intros Hn [[=] | Hin]%elem_of_cons. done.
      * intros Hn Hin. apply Hn. by right.
    + intros Hout w [[= ->] | Hin]%elem_of_cons; [| by apply Hsel].
      unfold MultiSelect_contains in *. rewrite Hadd, contains_name_app, Hv1. done.
    + intros Hx. apply Hnd. subst x1.
      destruct (MultiSelect_contains x (Some v)) eqn:Hc; simpl; [done |].
      unfold MultiSelect_Values. simpl. by apply NoDup_snoc_name.
  - split; [exists []; by rewrite app_nil_r |]. split; [| split]; try done.
    split; [done |]. intros Hn. exfalso. apply Hn. by left.
Qed.

Lemma filter_names_absent (opts : list SelectValue) (values : list (option string)) :
  (forall v, v ∈ values -> contains_name opts v = false) ->
  List.filter (fun opt => negb (py_in (Some (sv_name opt)) values)) opts = opts.
Proof.
  intros Habs. induction opts as [| opt opts IH]; simpl; [done |].
  assert (Hopt : py_in (Some (sv_name opt)) values = false).
  { destruct (py_in (Some (sv_name opt)) values) eqn:Hin; [| done].
    assert (Hel : Some (sv_name opt) ∈ values).
    { clear -Hin. induction values as [| w values IHv]; simpl in Hin; [done |].
      destruct (decide (w = Some (sv_name opt))) as [-> | Hne]; [by left |].
      right. by apply IHv. }
    specialize (Habs _ Hel). simpl in Habs.
    by rewrite decide_True in Habs. }
  rewrite Hopt. simpl. f_equal. apply IH.
  intros v Hv. specialize (Habs v Hv). simpl in Habs.
  destruct (decide (Some (sv_name opt) = v)); [done | exact Habs].
Qed.

Lemma py_in_elem_of {A} `{EqDecision A} (x : A) (l : list A) :
  py_in x l = true <-> x ∈ l.
Proof.
  induction l as [| y l IH]; simpl.
  - split; [done | by intros ?%elem_of_nil].
  - destruct (decide (y = x)) as [-> | Hne].
    + split; [intros _; by left | done].
    + rewrite IH. split; [by right |].
      intros [-> | Hin]%elem_of_cons; done.
Qed.

(** X4.  [MultiSelect.remove] never raises.  Afterwards a name is selected
    exactly when it was selected before and is not among the values removed,
    every option of a removed name being dropped; removing values that are
    not selected leaves the property as it was, where [-=] raises. *)
Theorem MultiSelect_remove_spec (values : list (option string)) (x : MultiSelect) :
  let x' := (MultiSelect_remove values x).2 in
  (MultiSelect_remove values x).1 = Ok tt
  /\ (forall name,
        MultiSelect_contains x' (Some name) = true
        <-> MultiSelect_contains x (Some name) = true /\ Some name ∉ values)
  /\ ((forall v, v ∈ values -> MultiSelect_contains x v = false) -> x' = x).
Proof.
  simpl. split; [reflexivity |]. split.
  - intros name. unfold MultiSelect_contains. simpl.
    induction (multi_select x) as [| opt opts IH]; simpl.
    + split; [done | by intros [? _]].
    + destruct (py_in (Some (sv_name opt)) values) eqn:Hin; simpl.
      * rewrite IH. destruct (decide (Some (sv_name opt) = Some name)) as [Heq | Hne].
        -- split; [by intros [_ ?] |]. intros [_ Hn]. exfalso. apply Hn.
           rewrite <- Heq. by apply py_in_elem_of.
        -- done.
      * destruct (decide (Some (sv_name opt) = Some name)) as [Heq | Hne].
        -- split; [| done]. intros _. split; [done |].
           rewrite <- Heq. intros Hel%py_in_elem_of. congruence.
        -- apply IH.
  - intros Habs. destruct x as [opts]. simpl. f_equal.
    by apply filter_names_absent.
Qed.

(** ** [+=] followed by [-=] *)

Lemma filter_drops_new (opts : list SelectValue) (v : string) :
  contains_name opts (Some v) = false ->
  List.filter (fun opt => negb (py_in (Some (sv_name opt)) [Some v]))
              (opts ++ [SelectValue_compose v None])
  = opts.
Proof.
  intros Hno. rewrite List.filter_app.
  rewrite filter_names_absent
    by (intros w [-> | []%elem_of_nil]%elem_of_cons; exact Hno).
  simpl. rewrite decide_True by done. simpl. apply app_nil_r.
Qed.

Lemma py_list_remove_snoc {A} `{EqDecision A} (x : A) (l : list A) :
  py_in x l = false -> py_list_remove x (l ++ [x]) = Some l.
Proof.
  induction l as [| y l IH]; simpl.
  - intros _. by rewrite decide_True.
  - destruct (decide (y = x)); [done |]. intros Hin. by rewrite IH.
Qed.

(** X5.  On a [MultiSelect] and on a [Files], adding with [+=] a value that
    is not there and removing it with [-=] gives the property back as it
    was. *)
Theorem iadd_isub_restores :
  (forall (x : MultiSelect) (v : string),
      MultiSelect_contains x (Some v) = false ->
      exists x', MultiSelect_iadd (Some v) x = (Ok tt, x')
                 /\ MultiSelect_isub (Some v) x' = (Ok tt, x))
  /\ (forall (x : Files) refs (f : FileObject),
      files x = Some refs ->
      Files_contains x (FObj f) = false ->
      exists x', Files_iadd f x = (Ok tt, x')
                 /\ Files_isub f x' = (Ok tt, x)).
Proof.
  split.
  - intros [opts] v Hno. unfold MultiSelect_iadd. rewrite Hno. simpl.
    unfold MultiSelect_contains in *. simpl in *. rewrite Hno. simpl.
    eexists. split; [reflexivity |].
    unfold MultiSelect_isub, MultiSelect_contains, MultiSelect_remove. simpl.
    rewrite contains_name_app. simpl. rewrite decide_True by done.
    rewrite orb_true_r. simpl.
    f_equal. f_equal. by apply filter_drops_new.
  - intros [o] refs f Hrefs Hno. simpl in Hrefs. subst o.
    unfold Files_iadd. rewrite Hno. unfold Files_append. simpl.
    eexists. split; [reflexivity |].
    unfold Files_isub, Files_contains, Files_remove. simpl.
    unfold Files_contains in Hno. simpl in Hno.
    rewrite contains_file_py_in in Hno.
    rewrite contains_file_py_in, py_in_self. simpl.
    by rewrite (py_list_remove_snoc _ _ Hno).
Qed.

Lemma iadd_isub_restores_witness :
  let x := MultiSelect_compose [Some "Backlog"] in
  MultiSelect_contains x (Some "Done") = false
  /\ exists x', MultiSelect_iadd (Some "Done") x = (Ok tt, x')
                /\ MultiSelect_isub (Some "Done") x' = (Ok tt, x).
Proof.
  split; [reflexivity |].
  apply (proj1 iadd_isub_restores (MultiSelect_compose [Some "Backlog"]) "Done").
  reflexivity.
Defined.

(** ** [Files] by name *)

Lemma file_by_name_spec (refs : list FileObject) (name : string) :
  match file_by_name refs name with
  | Some f => file_name f = Some name /\ f ∈ refs
             /\ contains_file refs (FName name) = true
  | None => contains_file refs (FName name) = false
  end.
Proof.
  induction refs as [| ref refs IH]; simpl; [done |].
  destruct (decide (file_name ref = Some name)) as [Heq | Hne].
  - rewrite bool_decide_eq_true_2 by done. split; [done |]. split; [by left | done].
  - rewrite bool_decide_eq_false_2 by done.
    destruct (file_by_name refs name) as [f |]; [| done].
    destruct IH as (Hn & Hin & Hc). split; [done |]. split; [by right | done].
Qed.

(** X6.  On a [Files] with a list, [x[name]] returns a file exactly when
    [name in x] holds; the file returned has that name and is one of the
    files; when [name in x] fails, [x[name]] raises [AttributeError].  On a
    [Files] without a list [x[name]] returns [None]. *)
Theorem Files_getitem_contains (x : Files) (name : string) :
  match files x with
  | Some refs =>
      (Files_contains x (FName name) = true
       <-> exists f, Files_getitem x name = Ok (Some f))
      /\ (forall f, Files_getitem x name = Ok (Some f) ->
                    file_name f = Some name /\ f ∈ refs)
      /\ (Files_contains x (FName name) = false
          <-> Files_getitem x name = Raise (AttributeError "No such file"))
  | None =>
      Files_getitem x name = Ok None /\ Files_contains x (FName name) = false
  end.
Proof.
  unfold Files_getitem, Files_contains.
  destruct (files x) as [refs |]; [| done].
  pose proof (file_by_name_spec refs name) as Hspec.
  destruct (file_by_name refs name) as [f |].
  - destruct Hspec as (Hn & Hin & Hc). rewrite Hc. split; [| split].
    + split; [eauto | done].
    + by intros g [= <-].
    + split; done.
  - rewrite Hspec. split; [| split].
    + split; [done | by intros [f [=]]].
    + by intros f [=].
    + done.
Qed.

(** ** Equality and printing of the native properties *)



(** X8.  [str()] of a [SelectOne] and of a [URL], [Email] or [PhoneNumber]
    never raises and is the empty string when there is no value; [str()] of
    a [Status] raises [AttributeError] exactly when the [Status] holds no
    status, and is the name, or the empty string, otherwise. *)
Theorem str_of_empty_properties :
  (forall x : SelectOne,
      SelectOne_str x = match select x with
                        | Some v => sv_name v
                        | None => ""
                        end)
  /\ (forall ty v, exists x,
        NativeTypeMixin_compose (Some ty) v = Ok x
        /\ NativeTypeMixin_str x = Ok (or_empty v))
  /\ (forall x : Status,
        status x = None
        <-> Status_str x
            = Raise (AttributeError "'NoneType' object has no attribute 'name'"))
  /\ (forall d, Status_str (mkStatus (Some d)) = Ok (or_empty (st_name d))).
Proof.
  split; [| split; [| split]].
  - intros [[v |]]; reflexivity.
  - intros ty v. eexists. split; [reflexivity |].
    unfold NativeTypeMixin_str, NativeTypeMixin_Value. simpl.
    rewrite lookup_singleton_eq. by destruct v.
  - intros [[d |]]; simpl; split; done.
  - reflexivity.
Qed.

(** ** [Formula] *)

Section FormulaProperties.
Context `{PyRepr}.

(** X9.  [str()] of a [Formula] whose result is one of the four result
    classes never raises, and it is the empty string whenever the result is
    missing or false in a test: an empty string, a number that tests false,
    or the boolean [False].  [str()] of the result object itself returns for
    a string result and for such a false result, and raises [TypeError] for
    every other number, date or boolean. *)
Theorem Formula_str_falsy (r : FormulaResult) (v : pyvalue) :
  FormulaResult_Result r = Ok v ->
  (exists s, Formula_str (mkFormula (Some r)) = Ok s)
  /\ (truthy v = false ->
      Formula_str (mkFormula (Some r)) = Ok ""
      /\ FormulaResult_str r = Ok "")
  /\ (truthy v = true ->
      Formula_str (mkFormula (Some r)) = Ok (py_str_value v)
      /\ (forall s, v = VStr s -> FormulaResult_str r = Ok s)
      /\ ((forall s, v <> VStr s) ->
          FormulaResult_str r = Raise (TypeError "__str__ returned non-string")))
  /\ Formula_str (mkFormula None) = Ok "".
Proof.
  intros Hr. unfold Formula_str, FormulaResult_str, Formula_Result. simpl.
  rewrite Hr. simpl. unfold or_empty_value.
  split; [eauto |]. split; [| split].
  - intros ->. done.
  - intros ->. split; [done |]. split.
    + by intros s ->.
    + intros Hns. destruct v; try done. by destruct (Hns s).
  - reflexivity.
Qed.

End FormulaProperties.

Lemma Formula_str_falsy_witness :
  let zero := @NumberFormula py_rational py_days (Some (0 # 1)%Q) in
  let three := @NumberFormula py_rational py_days (Some (3 # 1)%Q) in
  let no := @BooleanFormula py_rational py_days (Some false) in
  FormulaResult_Result zero = Ok (@VNum py_rational py_days (0 # 1)%Q)
  /\ @truthy py_rational py_days py_repr (@VNum py_rational py_days (0 # 1)%Q) = false
  /\ @Formula_str py_rational py_days py_repr (mkFormula (Some zero)) = Ok ""
  /\ @Formula_str py_rational py_days py_repr (mkFormula (Some no)) = Ok ""
  /\ @Formula_str py_rational py_days py_repr (mkFormula (Some three)) = Ok "3/1"
  /\ @FormulaResult_str py_rational py_days py_repr three
     = Raise (TypeError "__str__ returned non-string").
Proof.
  split; [reflexivity |]. split; [reflexivity |].
  split; [| repeat split; reflexivity].
  pose proof (@Formula_str_falsy py_rational py_days py_repr
                (@NumberFormula py_rational py_days (Some (0 # 1)%Q))
                (@VNum py_rational py_days (0 # 1)%Q) eq_refl)
    as (_ & Hfalsy & _).
  exact (proj1 (Hfalsy eq_refl)).
Defined.

(** ** [Date] *)

Section DateProperties.
Context `{PyDate}.


End DateProperties.

(** ** Comparisons of [Number] *)

Section NumberOrderProperties.
Context `{PyOrd}.

(** X11.  A [Number] whose native number is [None] has no order: [<], [<=],
    [>] and [>=] with it on either side raise [TypeError], whatever the
    other operand is.  [==] does not raise: it holds against [None] and
    against another such [Number], and fails against every number. *)
Theorem Number_None_comparisons (x : Number) (other : operand) :
  number x = None ->
  (forall cmp, cmp ∈ [Number_lt; Number_le; Number_gt; Number_ge] ->
     (exists msg, cmp x other = Raise (TypeError msg))
     /\ forall y, exists msg, cmp y (ONumber x) = Raise (TypeError msg))
  /\ Number_eq x other = bool_decide (operand_value other = None).
Proof.
  intros Hx. destruct x as [n]. simpl in Hx. subst n.
  split.
  - intros cmp Hcmp.
    repeat (apply elem_of_cons in Hcmp as [-> | Hcmp]);
      try (by apply elem_of_nil in Hcmp);
      unfold Number_le, Number_ge, Number_lt, Number_gt, Number_Value; simpl.
    + split; [by eexists |]. intros [[a |]]; by eexists.
    + split; [by eexists |]. intros [[a |]]; by eexists.
    + split; [destruct (operand_value other); by eexists | by eexists].
    + split; [destruct (operand_value other); by eexists | by eexists].
  - unfold Number_eq, Number_Value.
    destruct other as [[v |] | [[v |]]]; reflexivity.
Qed.

End NumberOrderProperties.

Lemma Number_None_comparisons_witness :
  let x := @mkNumber py_rational None in
  number x = None
  /\ (exists msg, @Number_le py_rational py_rational_ord x (ONative None)
                  = Raise (TypeError msg))
  /\ @Number_eq py_rational py_rational_ord x (ONative None) = true.
Proof.
  split; [reflexivity |].
  pose proof (@Number_None_comparisons py_rational py_rational_ord
                (@mkNumber py_rational None) (@ONative py_rational None) eq_refl)
    as [Hcmp Heq].
  split; [| exact Heq].
  apply (Hcmp Number_le). set_solver.
Defined.

(** ** [User] *)

(** X21.  Two [User] wrappers are equal exactly when their ids are, whatever
    their names and avatars, and equal users have equal hashes; comparing a
    [User] with an object that has no [id] raises [AttributeError]. *)
Theorem User_eq_by_id `{Helpers} (u v : User) :
  User_eq u (as_operand v) = Ok (bool_decide (User_id u = User_id v))
  /\ (User_eq u (as_operand v) = Ok true -> User_hash u = User_hash v)
  /\ User_eq u (as_operand u) = Ok true
  /\ User_eq u (as_operand v) = User_eq v (as_operand u)
  /\ (exists msg, User_eq u WithoutId = Raise (AttributeError msg)).
Proof.
  unfold User_eq, as_operand, User_hash. repeat apply conj.
  - reflexivity.
  - intros [= Hid%bool_decide_eq_true]. by rewrite Hid.
  - by rewrite bool_decide_eq_true_2.
  - f_equal. apply bool_decide_ext. split; congruence.
  - by eexists.
Qed.

(** ** [DatabasesEndpoint.update] and [PagesEndpoint.set] *)

Section UpdateProperties.
Context `{UpdateClient}.

(** X12.  [databases.update] given neither a title nor a schema sends
    nothing and returns its argument.  Given either, it sends one request to
    the database's id, which has a title exactly when a title was given and
    properties exactly when a schema was given -- an empty schema too -- and
    never a parent; what it returns is the refreshed database. *)
Theorem DatabasesEndpoint_update_request
    (dbref : DatabaseObj) (title : option string)
    (schema : option (gmap string (option PropertyType))) (ses : update_session) :
  let request :=
    mkDatabaseRequest None
      (match title with Some t => Some [TextObject t] | None => None end) schema in
  let logged := update_log ses ++ [(INFO, "Updating database info")] in
  match title, schema with
  | None, None =>
      DatabasesEndpoint_update dbref title schema ses
      = (Ok dbref, mkUpdateSession (update_calls ses) logged)
  | _, _ =>
      DatabasesEndpoint_update dbref title schema ses
      = (let* data := raw_databases_update (obj_id dbref) request in
         DatabaseObj_refresh dbref data,
         mkUpdateSession
           (update_calls ses ++ [DatabasesUpdate (obj_id dbref) request]) logged)
  end.
Proof.
  intros request logged. subst request logged.
  unfold DatabasesEndpoint_update, _build_request, mseq, update_logger,
    update_record, update_lift, mret.
  destruct title as [t |], schema as [sch |]; simpl;
    try reflexivity;
    destruct (raw_databases_update _ _); reflexivity.
Qed.

(** X13.  [pages.set] always sends one update to the page's id.  Its body
    has a key for each argument that was given and no other: [cover] and
    [icon] when they are not left at [False], as the empty object when they
    are [None], and [archived] when it is a boolean.  [delete] and [restore]
    send [archived] alone, [True] and [False]. *)
Theorem PagesEndpoint_set_payload
    (page : PageRecord) (cover : setting FileObject) (icon_ : setting icon)
    (archived : option bool) (ses : update_session) :
  (exists out props logged,
      PagesEndpoint_set page cover icon_ archived ses
      = (out,
         mkUpdateSession (update_calls ses ++ [PagesUpdate (page_id_of page) props])
                         (update_log ses ++ logged))
      /\ up_cover props
         = match cover with
           | Leave => None | Remove => Some None | Assign c => Some (Some c)
           end
      /\ up_icon props
         = match icon_ with
           | Leave => None | Remove => Some None | Assign i => Some (Some i)
           end
      /\ up_archived props = archived)
  /\ (PagesEndpoint_delete page ses).2
     = mkUpdateSession
         (update_calls ses
            ++ [PagesUpdate (page_id_of page) (mkPageUpdate None None (Some true))])
         (update_log ses ++ [(INFO, "Archiving page")])
  /\ (PagesEndpoint_restore page ses).2
     = mkUpdateSession
         (update_calls ses
            ++ [PagesUpdate (page_id_of page) (mkPageUpdate None None (Some false))])
         (update_log ses ++ [(INFO, "Restoring page")]).
Proof.
  split; [| split].
  - unfold PagesEndpoint_set.
    destruct cover, icon_, archived as [[|] |]; simpl;
      destruct (raw_pages_update _ _); do 3 eexists; (split; [reflexivity | done]).
  - unfold PagesEndpoint_delete, PagesEndpoint_set. simpl.
    by destruct (raw_pages_update _ _).
  - unfold PagesEndpoint_restore, PagesEndpoint_set. simpl.
    by destruct (raw_pages_update _ _).
Qed.

End UpdateProperties.

(** ** [PagesEndpoint.create] and [ChildrenEndpoint.append] *)

Section EndpointProperties.
Context `{Helpers} `{RawClient}.

(** X14.  [pages.create] without a parent, or with a parent that is neither
    a page, a database nor a parent reference, raises [ValueError] and
    leaves the session untouched.  Otherwise it sends exactly one request,
    whatever the transport answers: to the normalised parent, with the
    properties given -- a property that is [None] goes out as [null] -- with
    the key [title] bound to the title when one is given, also over a
    [title] among the properties, and with the children that are not
    [None]. *)
Theorem PagesEndpoint_create_request
    (parent : parent_arg) (title : option string)
    (properties : option (gmap string (option PropertyValue)))
    (children : option (list (option Block))) (ses : session) :
  match PagesEndpoint_parent parent with
  | Raise e =>
      PagesEndpoint_create parent title properties children ses = (Raise e, ses)
      /\ (parent = ParentNone \/ parent = ParentOther)
      /\ exists msg, e = ValueError msg
  | Ok ref =>
      exists out request,
        PagesEndpoint_create parent title properties children ses
        = (out,
           mkSession (calls ses ++ [PagesCreate request])
                     (log ses ++ [(INFO, "Creating page")]))
        /\ req_parent request = ref
        /\ (forall t, title = Some t ->
              req_properties request !! "title"
              = Some (Some (PVTitle (Title_compose [t]))))
        /\ (forall k, title = None \/ k <> "title" ->
              req_properties request !! k = default ∅ properties !! k)
        /\ req_children request
           = match children with
             | Some cs => Some (omap id cs)
             | None => None
             end
  end.
Proof.
  unfold PagesEndpoint_create, mseq, lift, logger, record_call.
  destruct (PagesEndpoint_parent parent) as [ref | e] eqn:Hparent.
  - simpl.
    set (request := mkPageRequest ref _ _).
    exists (let* data := raw_pages_create request in Page_parse_obj data), request.
    split; [| split; [| split; [| split]]].
    + destruct (raw_pages_create request); reflexivity.
    + reflexivity.
    + intros t ->. subst request. simpl. apply lookup_insert_eq.
    + intros k Hk. subst request. simpl.
      destruct title as [t |]; [| done].
      destruct Hk as [[=] | Hk]. by rewrite lookup_insert_ne.
    + reflexivity.
  - split; [reflexivity |].
    destruct parent; simpl in Hparent; inversion Hparent; subst; eauto.
Qed.

Lemma refresh_blocks_all (bs : list Block) (res : list raw_block) :
  Forall2 (fun b r => is_ok (Block_refresh b r) = true) bs res ->
  exists bs',
    refresh_blocks (Some <$> bs) res = (Ok tt, Some <$> bs')
    /\ Forall3 (fun b r b' => Block_refresh b r = Ok b') bs res bs'.
Proof.
  induction 1 as [| b r bs res Hok _ IH].
  - exists []. split; [done | constructor].
  - destruct (Block_refresh b r) as [b' |] eqn:Hb; [| done].
    destruct IH as (bs' & Hrest & Hall).
    exists (b' :: bs'). split; [| by constructor].
    change (Some <$> b :: bs) with (Some b :: (Some <$> bs)).
    cbn [refresh_blocks]. by rewrite Hb, Hrest.
Qed.

(** X15.  When the response of [blocks.children.append] has one result for
    each block and every refresh succeeds, [append] returns the parent, every
    block has been refreshed with the result at its place, and no warning is
    logged. *)
Theorem append_refreshes_in_order
    (parent : ref_arg) (bs : list Block) (res : list raw_block) (ses : session)
    (data : append_data raw_block) :
  raw_children_append (ref_id (ObjectReference_compose parent)) bs = Ok data ->
  results data = Some res ->
  Forall2 (fun b r => is_ok (Block_refresh b r) = true) bs res ->
  exists bs',
    ChildrenEndpoint_append parent (Some <$> bs, ses)
    = (Ok parent,
       (Some <$> bs',
        mkSession
          (calls ses ++ [BlocksChildrenAppend
                           (ref_id (ObjectReference_compose parent)) bs])
          (log ses ++ [(INFO, "Appending blocks")])))
    /\ Forall3 (fun b r b' => Block_refresh b r = Ok b') bs res bs'.
Proof.
  intros Hraw Hres Hall.
  assert (Hchildren : omap id (Some <$> bs) = bs).
  { clear. induction bs as [| b bs IH]; [done |]. cbn. by f_equal. }
  destruct (refresh_blocks_all bs res Hall) as (bs' & Hrefresh & Hall3).
  exists bs'. split; [| exact Hall3].
  unfold ChildrenEndpoint_append, logger, record_call. cbv beta iota zeta.
  rewrite Hchildren, Hraw, Hres.
  rewrite decide_True.
  - by rewrite Hrefresh.
  - rewrite length_fmap. by eapply Forall2_length.
Qed.

Lemma omap_id_length_lt {A} (l : list (option A)) :
  None ∈ l -> (length (omap id l) < length l)%nat.
Proof.
  assert (Hle : forall k : list (option A), (length (omap id k) <= length k)%nat).
  { induction k as [| [a |] k IH]; cbn; lia. }
  induction l as [| [a |] l IH]; cbn.
  - by intros ?%elem_of_nil.
  - intros [[=] | Hin]%elem_of_cons. specialize (IH Hin). lia.
  - intros _. specialize (Hle l). lia.
Qed.

(** X16.  [append] filters the blocks that are [None] out of what it sends
    but counts them when it compares lengths: with a [None] among the blocks
    and a response that has one result for each child sent, nothing is
    refreshed, not the other blocks either, and the size mismatch is logged. *)
Theorem append_None_block_skips_refresh
    (parent : ref_arg) (blocks : list (option Block)) (res : list raw_block)
    (ses : session) (data : append_data raw_block) :
  None ∈ blocks ->
  raw_children_append (ref_id (ObjectReference_compose parent)) (omap id blocks)
  = Ok data ->
  results data = Some res ->
  length res = length (omap id blocks) ->
  ChildrenEndpoint_append parent (blocks, ses)
  = (Ok parent,
     (blocks,
      mkSession
        (calls ses ++ [BlocksChildrenAppend
                         (ref_id (ObjectReference_compose parent))
                         (omap id blocks)])
        ((log ses ++ [(INFO, "Appending blocks")])
           ++ [(WARNING, "Unable to refresh results; size mismatch")]))).
Proof.
  intros Hnone Hraw Hres Hlen.
  unfold ChildrenEndpoint_append, logger, record_call. cbv beta iota zeta.
  rewrite Hraw, Hres.
  pose proof (omap_id_length_lt blocks Hnone) as Hlt.
  rewrite decide_False by lia. reflexivity.
Qed.

End EndpointProperties.

Lemma append_refreshes_in_order_witness :
  (@raw_children_append _ demo_client "page" ["old1"; "old2"]
   = Ok (mkAppendData (Some ["old1"; "old2"])))
  /\ exists bs',
      @ChildrenEndpoint_append py_rational demo_client (ById "page")
        ([Some "old1"; Some "old2"], empty_session)
      = (Ok (ById "page"),
         (Some <$> bs',
          mkSession [BlocksChildrenAppend "page" ["old1"; "old2"]]
                    [(INFO, "Appending blocks")])).
Proof.
  split; [reflexivity |].
  destruct (@append_refreshes_in_order py_rational demo_client (ById "page")
              ["old1"; "old2"] ["old1"; "old2"] empty_session
              (mkAppendData (Some ["old1"; "old2"])) eq_refl eq_refl)
    as (bs' & Hrun & _).
  { repeat constructor. }
  exists bs'. exact Hrun.
Defined.

Lemma append_None_block_skips_refresh_witness :
  let blocks : list (option (@Block _ demo_client)) := [Some "b1"; None] in
  None ∈ blocks
  /\ (@raw_children_append _ demo_client "page" (omap id blocks)
      = Ok (mkAppendData (Some ["b1"])))
  /\ @ChildrenEndpoint_append py_rational demo_client (ById "page")
       (blocks, empty_session)
     = (Ok (ById "page"),
        (blocks,
         mkSession [BlocksChildrenAppend "page" ["b1"]]
                   [(INFO, "Appending blocks");
                    (WARNING, "Unable to refresh results; size mismatch")])).
Proof.
  assert (Hnone : None ∈ ([Some "b1"; None] : list (option (@Block _ demo_client))))
    by set_solver.
  split; [exact Hnone |]. split; [reflexivity |].
  exact (@append_None_block_skips_refresh py_rational demo_client (ById "page")
           [Some "b1"; None] ["b1"] empty_session (mkAppendData (Some ["b1"]))
           Hnone eq_refl eq_refl eq_refl).
Defined.

(** ** Reflection of the schema *)

Lemma dict_set_elem {V} (k : string) (v : V) (d : list (string * V)) (x : string * V) :
  x ∈ dict_set k v d -> x = (k, v) \/ x ∈ d.
Proof.
  induction d as [| [k' v'] d IH]; simpl.
  - intros [-> | []%elem_of_nil]%elem_of_cons. by left.
  - destruct (decide (k' = k)).
    + intros [-> | Hin]%elem_of_cons; [by left | right; by right].
    + intros [-> | Hin]%elem_of_cons; [right; by left |].
      destruct (IH Hin) as [-> | Hd]; [by left | right; by right].
Qed.

Lemma dict_set_keys {V} (k : string) (v : V) (d : list (string * V)) :
  forall k', k' ∈ (dict_set k v d).*1 <-> k' = k \/ k' ∈ d.*1.
Proof.
  induction d as [| [k1 v1] d IH]; intros k'; simpl.
  - set_solver.
  - destruct (decide (k1 = k)) as [-> | Hne]; simpl.
    + set_solver.
    + rewrite elem_of_cons, IH. set_solver.
Qed.

Lemma dict_set_NoDup {V} (k : string) (v : V) (d : list (string * V)) :
  NoDup d.*1 -> NoDup (dict_set k v d).*1.
Proof.
  induction d as [| [k1 v1] d IH]; simpl.
  - intros _. apply NoDup_singleton.
  - intros [Hk1 Hd]%NoDup_cons. destruct (decide (k1 = k)) as [-> | Hne]; simpl.
    + by apply NoDup_cons.
    + apply NoDup_cons. split; [| by apply IH].
      rewrite dict_set_keys. intros [? | ?]; [congruence | done].
Qed.

Lemma dict_set_fresh {V} (k : string) (v : V) (d : list (string * V)) :
  k ∉ d.*1 -> dict_set k v d = d ++ [(k, v)].
Proof.
  induction d as [| [k1 v1] d IH]; simpl; [done |].
  intros Hk. destruct (decide (k1 = k)) as [-> | Hne].
  - exfalso. apply Hk. by left.
  - f_equal. apply IH. intros Hin. apply Hk. by right.
Qed.

Lemma dict_set_length {V} (k : string) (v : V) (d : list (string * V)) :
  (length (dict_set k v d) <= S (length d))%nat.
Proof.
  induction d as [| [k1 v1] d IH]; simpl; [lia |].
  destruct (decide (k1 = k)); simpl; lia.
Qed.

Section ReflectProperties.
Context `{Helpers}.

Let attr (k : string) : string := decapitalize (make_safe_python_name k).

Lemma reflect_attrs_snoc (properties : list (string * PropertyType)) k v :
  reflect_attrs (properties ++ [(k, v)])
  = dict_set (attr k) (mkColumn k v (attr k)) (reflect_attrs properties).
Proof. unfold reflect_attrs. by rewrite fold_left_app. Qed.

Lemma reflect_attrs_invariant (properties : list (string * PropertyType)) :
  NoDup (reflect_attrs properties).*1
  /\ (forall a col, (a, col) ∈ reflect_attrs properties ->
        attr_name col = a /\ a = attr (col_name col)
        /\ (col_name col, col_type col) ∈ properties)
  /\ (length (reflect_attrs properties) <= length properties)%nat.
Proof.
  induction properties as [| [k v] properties (Hnd & Hcols & Hlen)] using rev_ind.
  - split; [constructor |]. split; [| done]. by intros a col ?%elem_of_nil.
  - rewrite reflect_attrs_snoc. split; [by apply dict_set_NoDup |]. split.
    + intros a col [[= -> ->] | Hin]%dict_set_elem; simpl.
      * split; [done |]. split; [done |]. set_solver.
      * destruct (Hcols a col Hin) as (? & ? & ?). set_solver.
    + rewrite length_app. simpl.
      pose proof (dict_set_length (attr k) (mkColumn k v (attr k))
                    (reflect_attrs properties)). lia.
Qed.

Lemma reflect_attrs_distinct (properties : list (string * PropertyType)) :
  NoDup (attr <$> properties.*1) ->
  reflect_attrs properties
  = (fun '(k, v) => (attr k, mkColumn k v (attr k))) <$> properties.
Proof.
  induction properties as [| [k v] properties IH] using rev_ind; [done |].
  rewrite !fmap_app. simpl. intros [Hnd [Hfresh _]]%NoDup_app.
  rewrite reflect_attrs_snoc, IH by done.
  apply dict_set_fresh. intros Hin. apply (Hfresh (attr k)); [| by left].
  rewrite <- list_fmap_compose in Hin.
  apply list_elem_of_fmap in Hin as ([k1 v1] & Heq & Hin). simpl in Heq.
  apply list_elem_of_fmap. exists k1. split; [done |].
  apply list_elem_of_fmap. by exists (k1, v1).
Qed.


End ReflectProperties.

(** ** [create_page], the request *)

Section CreatePageProperties.
Context `{Helpers} `{RawClient}.

Lemma fill_schema_dct_accepts schema_kwargs kwargs schema_dct :
  (forall k v, (k, v) ∈ kwargs ->
     exists col, schema_kwargs !! k = Some col
                 /\ readonly (col_type col) = false
                 /\ forall n, v = KNative n ->
                      is_ok (prop_value_cls (col_type col) n) = true) ->
  exists filled,
    fill_schema_dct schema_kwargs kwargs schema_dct = Ok filled
    /\ dom filled
       = dom schema_dct
           ∪ list_to_set (omap (fun kv => col_name <$> schema_kwargs !! kv.1) kwargs)
    /\ (forall n pv, filled !! n = Some pv ->
          schema_dct !! n = Some pv \/ is_Some pv).
Proof.
  revert schema_dct. induction kwargs as [| [k v] rest IH]; intros dct Hvalid.
  - exists dct. split; [done |]. split; [set_solver | eauto].
  - destruct (Hvalid k v) as (col & Hcol & Hrw & Haccept); [by left |].
    cbn [fill_schema_dct]. rewrite Hcol, Hrw.
    assert (Hpv : exists pv,
               match v with
               | KProp p => Ok p
               | KNative n => prop_value_cls (col_type col) n
               end = Ok pv).
    { destruct v as [p | n]; [eauto |].
      specialize (Haccept n eq_refl).
      destruct (prop_value_cls (col_type col) n); [eauto | done]. }
    destruct Hpv as [pv ->]. cbn [rbind].
    destruct (IH (<[ col_name col := Some pv ]> dct)) as (filled & -> & Hdom & Hval).
    { intros k' v' Hin. apply Hvalid. by right. }
    exists filled. split; [done |]. split.
    + rewrite Hdom, dom_insert_L. cbn. rewrite Hcol. cbn. set_solver.
    + intros n pv' Hn. destruct (Hval n pv' Hn) as [Hins | ?]; [| by right].
      destruct (decide (n = col_name col)) as [-> | Hne].
      * rewrite lookup_insert_eq in Hins. injection Hins as <-. right. eauto.
      * rewrite lookup_insert_ne in Hins by done. by left.
Qed.

(** X19.  When every keyword of [create_page] is an attribute of the schema
    mapped to a writable column and every native value is accepted by its
    property class, [create_page] sends exactly one request: to the database
    as parent, without children, whose properties are keyed by the
    server-side names of the columns the keywords are mapped to -- those and
    no other -- and none of them [null].  What it returns is the page parsed
    from the answer, or the exception of the transport. *)
Theorem create_page_sends_given_columns
    (db : Database) (ses : session) (kwargs : list (string * kwvalue)) :
  let schema := (schema_get db).1 in
  let db' := (schema_get db).2 in
  let schema_kwargs := schema_kwargs_of schema in
  (forall k v, (k, v) ∈ kwargs ->
     exists col, schema_kwargs !! k = Some col
                 /\ readonly (col_type col) = false
                 /\ forall n, v = KNative n ->
                      is_ok (prop_value_cls (col_type col) n) = true) ->
  exists request,
    create_page kwargs (db, ses)
    = ((let* data := raw_pages_create request in
        let* obj := Page_parse_obj data in
        Ok (mkPage obj)),
       (db', mkSession (calls ses ++ [PagesCreate request])
                       (log ses ++ [(INFO, "Creating page")])))
    /\ req_parent request = DatabaseRef (obj_id (db_obj_ref db))
    /\ req_children request = None
    /\ dom (req_properties request)
       = list_to_set (omap (fun kv => col_name <$> schema_kwargs !! kv.1) kwargs)
    /\ (forall n pv, req_properties request !! n = Some pv -> is_Some pv).
Proof.
  intros schema db' schema_kwargs Hvalid.
  pose proof (schema_get_caches db) as [_ Hobj].
  unfold create_page.
  destruct (schema_get db) as [sch d1] eqn:Hget.
  simpl in schema, db', Hobj. subst schema db'. fold schema_kwargs.
  assert (Hsub : (list_to_set (kwargs.*1) : gset string) ⊆ dom schema_kwargs).
  { intros k Hk. apply elem_of_list_to_set in Hk.
    apply list_elem_of_fmap in Hk as ([k' v] & -> & Hin).
    destruct (Hvalid k' v Hin) as (col & Hcol & _).
    apply elem_of_dom. eauto. }
  rewrite bool_decide_eq_true_2 by done. cbn [negb].
  destruct (fill_schema_dct_accepts schema_kwargs kwargs ∅ Hvalid)
    as (filled & -> & Hdom & Hval).
  unfold PagesEndpoint_create, mseq, lift, logger, record_call.
  cbn [PagesEndpoint_parent default calls log].
  change (id filled) with filled.
  set (request := mkPageRequest (DatabaseRef (obj_id (db_obj_ref d1))) filled None).
  exists request. split; [| split; [| split; [| split]]].
  - destruct (raw_pages_create request) as [data | e]; [| done].
    cbn [rbind]. by destruct (Page_parse_obj data).
  - subst request. simpl. by rewrite Hobj.
  - reflexivity.
  - subst request. simpl. rewrite Hdom, dom_empty_L. set_solver.
  - intros n pv Hn. subst request. simpl in Hn.
    destruct (Hval n pv Hn) as [Hempty | ?]; [| done].
    by rewrite lookup_empty in Hempty.
Qed.

End CreatePageProperties.

(** ** [RichText.from_plain_text] *)

Section FromPlainTextProperties.
Context `{Helpers}.

Lemma truthy_plain_texts_parts (parts : list string) :
  truthy_plain_texts
    (RichText_obj_ref
       (map (fun part => mkRichTextBase (Some (TextObject part))) parts))
  = parts.
Proof. induction parts as [| p parts IH]; [done |]. cbn. by f_equal. Qed.

(** X20.  With a [chunky] that loses no character, the [RichText] built from
    a string renders to that string: it is equal to the string, has the hash
    of the string, and [to_plain_text] gives the string back, or [None] when
    there was no chunk. *)
Theorem RichText_from_plain_text_roundtrip (s : string) :
  (forall t, join (chunky t) = t) ->
  RichText_str (from_plain_text s) = s
  /\ RichText_eq (from_plain_text s) (RStr s) = Some true
  /\ RichText_hash (from_plain_text s) = py_hash s
  /\ to_plain_text (from_plain_text s)
     = match chunky s with
       | [] => None
       | _ => Some s
       end.
Proof.
  intros Hchunky.
  assert (Hplain : to_plain_text (from_plain_text s)
                   = match chunky s with [] => None | _ => Some s end).
  { unfold to_plain_text, from_plain_text.
    destruct (chunky s) as [| p parts] eqn:Hparts; [done |].
    rewrite <- Hparts, truthy_plain_texts_parts, Hchunky.
    by rewrite Hparts. }
  assert (Hstr : RichText_str (from_plain_text s) = s).
  { unfold RichText_str. rewrite Hplain.
    destruct (chunky s) eqn:Hparts; [| done].
    by rewrite <- (Hchunky s), Hparts. }
  split; [exact Hstr |]. split; [| split; [| exact Hplain]].
  - simpl. by rewrite Hstr, bool_decide_eq_true_2.
  - unfold RichText_hash. by rewrite Hstr.
Qed.

End FromPlainTextProperties.

Lemma create_page_sends_given_columns_witness :
  let kwargs : list (string * @kwvalue py_rational) :=
    [("task", KNative (NStr "Write")); ("url", KNative (NStr "https://a.b"))] in
  exists request,
    (@create_page demo_helpers py_rational demo_client kwargs (task_db, empty_session)).2
    = (task_db, mkSession [PagesCreate request] [(INFO, "Creating page")])
    /\ dom (req_properties request) = {[ "Task"; "URL" ]}.
Proof.
  intros kwargs.
  destruct (@create_page_sends_given_columns demo_helpers py_rational demo_client
              task_db empty_session kwargs)
    as (request & Hrun & _ & _ & Hdom & _).
  { intros k v Hin. subst kwargs.
    apply elem_of_cons in Hin as [[= -> ->] | Hin].
    - exists (mkColumn "Task" TTitle "task").
      split; [by vm_compute |]. split; [done |]. by intros n [= <-].
    - apply elem_of_cons in Hin as [[= -> ->] | Hin]; [| by apply elem_of_nil in Hin].
      exists (mkColumn "URL" TURL "url").
      split; [by vm_compute |]. split; [done |]. by intros n [= <-]. }
  exists request. split; [by rewrite Hrun |].
  rewrite Hdom. by vm_compute.
Defined.

Lemma RichText_from_plain_text_roundtrip_witness :
  (forall t, join (chunky_by 2 t) = t)
  /\ RichText_str (@from_plain_text demo_helpers "abcdefg") = "abcdefg"
  /\ length (@from_plain_text demo_helpers "abcdefg") = 3%nat.
Proof.
  split; [apply join_chunky_by |].
  split; [| reflexivity].
  apply (@RichText_from_plain_text_roundtrip demo_helpers "abcdefg" (join_chunky_by 2)).
Defined.

(** ** The database's name and schema *)

Section DatabaseProperties.
Context `{Helpers} `{RawClient}.

(** X18.  [str(db)] is never the empty string: it is the title when the
    database has one that is not empty, and [Untitled] otherwise; it is the
    title the reflected schema is created under. *)
Theorem Database_str_not_empty (db : Database) :
  Database_str db <> ""
  /\ (forall t, Database_title db = Some t -> t <> "" -> Database_str db = t)
  /\ (Database_title db = None \/ Database_title db = Some "" ->
      Database_str db = "Untitled")
  /\ db_title (_reflect_schema db) = Database_str db.
Proof.
  unfold Database_str, _reflect_schema. simpl.
  destruct (Database_title db) as [t |]; [| by repeat split; try intros [|]].
  destruct (decide (t = "")) as [-> | Hne].
  - repeat split; try done. by intros t [= <-].
  - repeat split; try done.
    + by intros t' [= <-].
    + intros [[=] | [= ->]]. done.
Qed.

(** X22.  Once a schema has been assigned to a database, the database's
    schema is the assigned one, bound to the database, and [create_page]
    checks its keywords against the attribute names of the assigned schema:
    a keyword that is none of them raises [SchemaError] before anything is
    sent. *)
Theorem assigned_schema_drives_create_page
    (db db1 : Database) (user : PageSchema) :
  schema_set user db = (Ok tt, db1) ->
  schema_get db1 = (bind_db (obj_id (db_obj_ref db)) user, db1)
  /\ forall (ses : session) (kwargs : list (string * kwvalue)),
      (exists k, k ∈ kwargs.*1 /\ k ∉ attr_name <$> get_cols user) ->
      create_page kwargs (db1, ses)
      = (Raise (SchemaError
                  (UndefinedKwargs
                     (list_to_set (kwargs.*1)
                        ∖ list_to_set (attr_name <$> get_cols user)))),
         (db1, ses)).
Proof.
  intros Hset.
  assert (Hdb1 : db1 = mkDatabase (db_obj_ref db)
                         (Some (bind_db (obj_id (db_obj_ref db)) user))).
  { unfold schema_set in Hset.
    pose proof (schema_get_caches db) as [_ Hobj].
    destruct (schema_get db) as [cur d1]. simpl in Hobj.
    destruct (is_consistent_with cur user).
    - injection Hset as <-. by rewrite Hobj.
    - destruct (schema_get d1) as [cur2 d2].
      by destruct (dict_diff_str (to_dict cur2) (to_dict user)) as [[? ?] ?]. }
  assert (Hget : schema_get db1 = (bind_db (obj_id (db_obj_ref db)) user, db1))
    by (by subst db1).
  split; [exact Hget |].
  intros ses kwargs (k & Hk & Hnot).
  unfold create_page. rewrite Hget.
  assert (Hdom : dom (schema_kwargs_of (bind_db (obj_id (db_obj_ref db)) user))
                 = list_to_set (attr_name <$> get_cols user))
    by (rewrite dom_schema_kwargs; reflexivity).
  rewrite bool_decide_eq_false_2; [simpl; by rewrite Hdom |].
  rewrite Hdom. intros Hsub. apply Hnot.
  apply (elem_of_list_to_set (C := gset string)), Hsub.
  by apply elem_of_list_to_set.
Qed.

End DatabaseProperties.

Lemma assigned_schema_drives_create_page_witness :
  let db1 := mkDatabase (db_obj_ref ab_db) (Some (bind_db "db-ab" renamed_AB)) in
  @schema_set demo_helpers renamed_AB ab_db = (Ok tt, db1)
  /\ @create_page demo_helpers py_rational demo_client
       [("a", KNative (NStr "x"))] (db1, empty_session)
     = (Raise (SchemaError
                 (UndefinedKwargs (list_to_set ["a"]
                                     ∖ list_to_set ["first"; "second"]))),
        (db1, empty_session)).
Proof.
  assert (Hset : @schema_set demo_helpers renamed_AB ab_db
                 = (Ok tt, mkDatabase (db_obj_ref ab_db)
                             (Some (bind_db "db-ab" renamed_AB))))
    by by vm_compute.
  split; [exact Hset |].
  apply (proj2 (@assigned_schema_drives_create_page demo_helpers py_rational
                  demo_client ab_db _ renamed_AB Hset)).
  exists "a". split; [set_solver |].
  rewrite list_elem_of_In. vm_compute. intros [? | [? | []]]; discriminate.
Defined.
